(** * nemo_firecloud_client: a shallow embedding and its properties

    The development follows [nemo_firecloud_client.py]: the Python string
    primitives the script relies on, the MD5 digest of [hashlib], a small
    model of the file system, the network, [tarfile] and [gsutil], and then
    the script's own functions under their own names.  Definitions come
    first; lemmas and theorems follow in the second half of the file.

    What the model takes for granted:
    - text is ASCII, and a path is a string: runs of slashes and a
      trailing slash apart, two different strings are two different files;
    - a read returns all the bytes asked for while the stream has them;
    - a byte written through the handle of line 148 counts as in the
      file from the [write] on.  The handle is buffered and is closed
      only when line 198 is left, so that in a run the last bytes written
      may reach the file after lines 169-198 have read it under its name:
      what is stated below on the content of a downloaded file is about
      the bytes written to it, and the examples that follow an entry
      through lines 171-198 are chosen so that their outcome does not
      depend on it;
    - the members of an archive are regular files;
    - what [print] and [generate_status_message] write is left out; what
      goes to [sys.stderr] is kept;
    - the content a URL serves, the way [tarfile] reads a file and the
      exit code of [gsutil] do not change during a run;
    - [os.listdir] lists in the order of the keys of the file map. *)

From Stdlib Require Import ZArith Lia List String Ascii Bool.
From Stdlib.Strings Require Import Byte.
From stdpp Require Import base option list strings gmap pretty.

Local Open Scope string_scope.
Local Open Scope list_scope.
Local Open Scope Z_scope.

(* ===================================================================== *)
(** * Part I: definitions                                                 *)
(* ===================================================================== *)

(** ** Exceptions and results

    A Python call either returns a value or raises.  Only the exception
    classes the script can meet are listed. *)

Inductive exn : Type :=
| IndexError                    (* list index out of range *)
| UnboundLocalError             (* local variable read before assignment *)
| IOError                       (* a failing file system call *)
| TarError                      (* raised inside [tarfile] *)
| URLError                      (* raised by [urlopen] *)
| ZeroDivisionError
| Exception (msg : string).     (* [raise Exception(msg)] *)

Inductive result (A : Type) : Type :=
| Ok (a : A)
| Raise (e : exn).
Arguments Ok {A} a.
Arguments Raise {A} e.

Definition rbind {A B} (r : result A) (k : A → result B) : result B :=
  match r with
  | Ok a => k a
  | Raise e => Raise e
  end.

(** a function that may raise, applied along a list from left to right *)
Fixpoint rmap {A B} (f : A → result B) (l : list A) : result (list B) :=
  match l with
  | [] => Ok []
  | x :: l' => rbind (f x) (λ y, rbind (rmap f l') (λ ys, Ok (y :: ys)))
  end.

Definition of_index {A} (o : option A) : result A :=
  match o with
  | Some a => Ok a
  | None => Raise IndexError
  end.

(** ** Python string primitives *)

Module Py.

(** [s.startswith(p)] *)
Definition startswith (s p : string) : bool := String.prefix p s.

Fixpoint drop (n : nat) (s : string) : string :=
  match n, s with
  | O, _ => s
  | S n', String _ s' => drop n' s'
  | S _, EmptyString => EmptyString
  end.

(** [s.endswith(p)] *)
Definition endswith (s p : string) : bool :=
  (String.length p <=? String.length s)%nat
  && String.eqb (drop (String.length s - String.length p) s) p.

(** [sub in s] *)
Fixpoint contains (sub s : string) : bool :=
  String.prefix sub s ||
  match s with
  | EmptyString => false
  | String _ s' => contains sub s'
  end.

Definition is_upper (c : ascii) : bool :=
  let n := nat_of_ascii c in (65 <=? n)%nat && (n <=? 90)%nat.

Definition is_lower (c : ascii) : bool :=
  let n := nat_of_ascii c in (97 <=? n)%nat && (n <=? 122)%nat.

Definition lower_char (c : ascii) : ascii :=
  if is_upper c then ascii_of_nat (nat_of_ascii c + 32) else c.

Definition upper_char (c : ascii) : ascii :=
  if is_lower c then ascii_of_nat (nat_of_ascii c - 32) else c.

Fixpoint map_chars (f : ascii → ascii) (s : string) : string :=
  match s with
  | EmptyString => EmptyString
  | String c s' => String (f c) (map_chars f s')
  end.

(** [s.lower()] and [s.upper()], on ASCII text *)
Definition lower : string → string := map_chars lower_char.
Definition upper : string → string := map_chars upper_char.

(** [cut s sep] finds the first occurrence of [sep] in [s] and returns
    what stands before and after it. *)
Fixpoint cut (s sep : string) : option (string * string) :=
  if String.prefix sep s then Some (EmptyString, drop (String.length sep) s)
  else match s with
       | EmptyString => None
       | String c s' =>
           match cut s' sep with
           | Some (a, b) => Some (String c a, b)
           | None => None
           end
       end.

Fixpoint split_fuel (fuel : nat) (s sep : string) : list string :=
  match fuel with
  | O => [s]
  | S fuel' =>
      match cut s sep with
      | None => [s]
      | Some (a, b) => a :: split_fuel fuel' b sep
      end
  end.

(** [s.split(sep)] for a non-empty separator (every separator in the
    script is a literal).  Each cut consumes at least one character, so
    the length of [s] is fuel enough. *)
Definition split (s sep : string) : list string :=
  split_fuel (String.length s) s sep.

(** the characters written [\n] and [\t] in the script *)
Definition nl : string := String "010"%char EmptyString.
Definition tab : string := String "009"%char EmptyString.

(** [sep.join(l)] *)
Definition join (sep : string) (l : list string) : string :=
  String.concat sep l.

(** [l[-n:]] *)
Definition last_n {A} (n : nat) (l : list A) : list A :=
  skipn (length l - n) l.

(** [l[-1]] *)
Definition last_item {A} (l : list A) : result A := of_index (last l).

End Py.

(** ** Bytes and streams *)

Abbreviation bytes := (list byte).

Definition byte_val (b : byte) : Z := Z.of_N (Byte.to_N b).

(** [f.read(n)] on what is left of a stream: at most [n] bytes, and the
    rest of the stream; a negative [n] reads to the end. *)
Definition read (n : Z) (stream : bytes) : bytes * bytes :=
  if n <? 0 then (stream, [])
  else (firstn (Z.to_nat n) stream, skipn (Z.to_nat n) stream).

(** ** MD5 (RFC 1321), the digest behind [hashlib.md5] *)

Module MD5.

Definition wrap (x : Z) : Z := x mod 2 ^ 32.

Definition rotl (x c : Z) : Z :=
  wrap (Z.lor (Z.shiftl x c) (Z.shiftr x (32 - c))).

Definition not32 (x : Z) : Z := Z.lxor x 0xffffffff.

Definition K : list Z :=
  [ 0xd76aa478; 0xe8c7b756; 0x242070db; 0xc1bdceee;
    0xf57c0faf; 0x4787c62a; 0xa8304613; 0xfd469501;
    0x698098d8; 0x8b44f7af; 0xffff5bb1; 0x895cd7be;
    0x6b901122; 0xfd987193; 0xa679438e; 0x49b40821;
    0xf61e2562; 0xc040b340; 0x265e5a51; 0xe9b6c7aa;
    0xd62f105d; 0x02441453; 0xd8a1e681; 0xe7d3fbc8;
    0x21e1cde6; 0xc33707d6; 0xf4d50d87; 0x455a14ed;
    0xa9e3e905; 0xfcefa3f8; 0x676f02d9; 0x8d2a4c8a;
    0xfffa3942; 0x8771f681; 0x6d9d6122; 0xfde5380c;
    0xa4beea44; 0x4bdecfa9; 0xf6bb4b60; 0xbebfbc70;
    0x289b7ec6; 0xeaa127fa; 0xd4ef3085; 0x04881d05;
    0xd9d4d039; 0xe6db99e5; 0x1fa27cf8; 0xc4ac5665;
    0xf4292244; 0x432aff97; 0xab9423a7; 0xfc93a039;
    0x655b59c3; 0x8f0ccc92; 0xffeff47d; 0x85845dd1;
    0x6fa87e4f; 0xfe2ce6e0; 0xa3014314; 0x4e0811a1;
    0xf7537e82; 0xbd3af235; 0x2ad7d2bb; 0xeb86d391 ].

Definition shifts : list Z :=
  [ 7; 12; 17; 22; 7; 12; 17; 22; 7; 12; 17; 22; 7; 12; 17; 22;
    5;  9; 14; 20; 5;  9; 14; 20; 5;  9; 14; 20; 5;  9; 14; 20;
    4; 11; 16; 23; 4; 11; 16; 23; 4; 11; 16; 23; 4; 11; 16; 23;
    6; 10; 15; 21; 6; 10; 15; 21; 6; 10; 15; 21; 6; 10; 15; 21 ].

Record regs := Regs { rA : Z; rB : Z; rC : Z; rD : Z }.

Definition init : regs :=
  Regs 0x67452301 0xefcdab89 0x98badcfe 0x10325476.

(** one of the 64 operations on a block of sixteen words [M] *)
Definition op (M : list Z) (r : regs) (i : nat) : regs :=
  let '(Regs a b c d) := r in
  let zi := Z.of_nat i in
  let '(f, g) :=
    if (i <? 16)%nat then
      (Z.lor (Z.land b c) (Z.land (not32 b) d), zi)
    else if (i <? 32)%nat then
      (Z.lor (Z.land d b) (Z.land (not32 d) c), (5 * zi + 1) mod 16)
    else if (i <? 48)%nat then
      (Z.lxor b (Z.lxor c d), (3 * zi + 5) mod 16)
    else
      (Z.lxor c (Z.lor b (not32 d)), (7 * zi) mod 16) in
  let f' := wrap (f + a + nth i K 0 + nth (Z.to_nat g) M 0) in
  Regs d (wrap (b + rotl f' (nth i shifts 0))) b c.

Definition compress (r : regs) (M : list Z) : regs :=
  let '(Regs a b c d) := fold_left (op M) (seq 0 64) r in
  Regs (wrap (rA r + a)) (wrap (rB r + b)) (wrap (rC r + c)) (wrap (rD r + d)).

(** little-endian encodings *)
Fixpoint le_bytes (n : nat) (x : Z) : list Z :=
  match n with
  | O => []
  | S n' => x mod 256 :: le_bytes n' (x / 256)
  end.

Fixpoint le_value (l : list Z) : Z :=
  match l with
  | [] => 0
  | b :: l' => b + 256 * le_value l'
  end.

Fixpoint chunks (fuel n : nat) (l : list Z) : list (list Z) :=
  match fuel, l with
  | O, _ | _, [] => []
  | S fuel', _ => firstn n l :: chunks fuel' n (skipn n l)
  end.

Definition pad (msg : list Z) : list Z :=
  let len := Z.of_nat (length msg) in
  msg ++ [0x80] ++ repeat 0 (Z.to_nat ((55 - len) mod 64))
      ++ le_bytes 8 ((8 * len) mod 2 ^ 64).

Definition words (block : list Z) : list Z :=
  map le_value (chunks 16 4 block).

(** the sixteen digest bytes of a message *)
Definition digest (msg : bytes) : list Z :=
  let padded := pad (map byte_val msg) in
  let blocks := chunks (length padded) 64 padded in
  let '(Regs a b c d) := fold_left compress (map words blocks) init in
  le_bytes 4 a ++ le_bytes 4 b ++ le_bytes 4 c ++ le_bytes 4 d.

Definition hex_digit (x : Z) : ascii :=
  if x <? 10 then ascii_of_nat (Z.to_nat (48 + x))
  else ascii_of_nat (Z.to_nat (87 + x)).

Fixpoint hex (l : list Z) : string :=
  match l with
  | [] => EmptyString
  | b :: l' => String (hex_digit (b / 16)) (String (hex_digit (b mod 16)) (hex l'))
  end.

(** The [hashlib] object.  Its documented behaviour is that successive
    calls of [update] are equivalent to one call with the concatenation
    of their arguments, so the object is modelled by the data fed so
    far. *)
Definition t := bytes.
Definition new : t := [].
Definition update (m : t) (chunk : bytes) : t := m ++ chunk.

(** [m.hexdigest()]: thirty-two lowercase hexadecimal digits *)
Definition hexdigest (m : t) : string := hex (digest m).

End MD5.

(** ** Paths ([os.path]) *)

Module Path.

(** [os.path.join(a, b)] *)
Definition join (a b : string) : string :=
  if Py.startswith b "/" then b
  else if String.eqb a "" || Py.endswith a "/" then a +:+ b
  else a +:+ "/" +:+ b.

Fixpoint drop_while_slash (l : list ascii) : list ascii :=
  match l with
  | "/"%char :: l' => drop_while_slash l'
  | _ => l
  end.

Fixpoint drop_until_slash (l : list ascii) : list ascii :=
  match l with
  | [] => []
  | "/"%char :: _ => l
  | _ :: l' => drop_until_slash l'
  end.

(** [os.path.dirname(p)]: the head up to the last slash, without its
    trailing slashes unless it consists of slashes only *)
Definition dirname (p : string) : string :=
  let head := drop_until_slash (rev (list_ascii_of_string p)) in
  match drop_while_slash head with
  | [] => string_of_list_ascii (rev head)
  | stripped => string_of_list_ascii (rev stripped)
  end.

Fixpoint squeeze (s : string) : string :=
  match s with
  | EmptyString => EmptyString
  | String c s' =>
      match c, s' with
      | "/"%char, String "/"%char _ => squeeze s'
      | _, _ => String c (squeeze s')
      end
  end.

(** The name under which the file system knows a path: runs of slashes
    count as one and a trailing slash is dropped.  Neither [.] and [..]
    nor links are resolved. *)
Definition norm (p : string) : string :=
  let q := squeeze p in
  if Py.endswith q "/" && (1 <? String.length q)%nat
  then substring 0 (String.length q - 1) q
  else q.

Definition strip_prefix (p s : string) : option string :=
  if String.prefix p s then Some (Py.drop (String.length p) s) else None.

(** the entry of directory [d] through which the path [p] is reached *)
Definition child (d p : string) : option string :=
  match strip_prefix (d +:+ "/") p with
  | Some rest =>
      match Py.split rest "/" with
      | e :: _ => if String.eqb e "" then None else Some e
      | [] => None
      end
  | None => None
  end.

End Path.

(** ** The world the script runs in *)

(** a member of a tar archive ([TarInfo] and its data) *)
Record member := Member { name : string; payload : bytes }.

Record request := Request { req_url : string; req_headers : list (string * string) }.

(** What lies outside the script and does not change while it runs. *)
Record env := Env {
  (** the content a URL serves; [None] when [urlopen] raises for it *)
  remote : string → option bytes;
  (** how [tarfile] reads a file: its members, or [None] when
      [tarfile.open] or [getmembers] raises *)
  tar_members : bytes → option (list member);
  (** [extractall] on that file raises once so many members are written
      (a damaged member, a full disk) *)
  extract_fault : bytes → option nat;
  (** [executor.run_command]: exit code, stdout, stderr *)
  run_command : list string → Z * string * string
}.

Record world := World {
  fs : gmap string bytes;             (* regular files by normalised path *)
  dirs : list string;                 (* directories made with [os.mkdir] *)
  sent : list request;                (* requests sent, oldest first *)
  ran : list (list string);           (* commands run, oldest first *)
  stderr : list string                (* what went to [sys.stderr] *)
}.

Definition set_fs (f : gmap string bytes → gmap string bytes) (w : world) : world :=
  World (f (fs w)) (dirs w) (sent w) (ran w) (stderr w).

(** Computations: they read and change the world and return or raise. *)
Definition M (A : Type) : Type := world → result A * world.

Definition ret {A} (a : A) : M A := λ w, (Ok a, w).
Definition raise {A} (e : exn) : M A := λ w, (Raise e, w).
Definition bind {A B} (c : M A) (k : A → M B) : M B :=
  λ w, match c w with
       | (Ok a, w') => k a w'
       | (Raise e, w') => (Raise e, w')
       end.
Definition lift {A} (r : result A) : M A := λ w, (r, w).

(** [try: c except Exception as e: h e] *)
Definition try_except {A} (c : M A) (h : exn → M A) : M A :=
  λ w, match c w with
       | (Ok a, w') => (Ok a, w')
       | (Raise e, w') => h e w'
       end.

Declare Scope py_scope.
Delimit Scope py_scope with py.
Notation "'let*' x ':=' c 'in' k" := (bind c (λ x, k))
  (at level 10, x name, c at level 100, k at level 200) : py_scope.
Notation "'run' c 'in' k" := (bind c (λ _, k))
  (at level 10, c at level 100, k at level 200) : py_scope.
Local Open Scope py_scope.

(** [for x in l: body x], with the loop state passed along *)
Fixpoint for_each {A S} (l : list A) (body : A → S → M S) (s : S) : M S :=
  match l with
  | [] => ret s
  | x :: l' => let* s' := body x s in for_each l' body s'
  end.

Definition write_stderr (msg : string) : M unit :=
  λ w, (Ok tt, World (fs w) (dirs w) (sent w) (ran w) (stderr w ++ [msg])).

(** str(e) *)
Definition exn_str (e : exn) : string :=
  match e with
  | IndexError => "list index out of range"
  | UnboundLocalError => "local variable referenced before assignment"
  | IOError => "I/O error"
  | TarError => "tar error"
  | URLError => "url error"
  | ZeroDivisionError => "division by zero"
  | Exception msg => msg
  end.

(** ** The file system ([os], [shutil], [open]) *)

Module FS.

Definition paths (w : world) : list string :=
  map fst (map_to_list (fs w)) ++ dirs w.

Definition entries (w : world) (d : string) : list string :=
  remove_dups (omap (Path.child (Path.norm d)) (paths w)).

Definition is_file (w : world) (p : string) : bool :=
  bool_decide (is_Some (fs w !! Path.norm p)).

Definition is_dir (w : world) (p : string) : bool :=
  bool_decide (Path.norm p ∈ dirs w)
  || negb (is_file w p) && bool_decide (entries w p ≠ []).

(** [os.path.exists(p)] *)
Definition exists_ (p : string) : M bool :=
  λ w, (Ok (is_file w p || is_dir w p), w).

(** [os.path.getsize(p)] *)
Definition getsize (p : string) : M Z :=
  λ w, match fs w !! Path.norm p with
       | Some data => (Ok (Z.of_nat (length data)), w)
       | None => (Raise IOError, w)
       end.

(** the whole content of the file at [p] *)
Definition read_file (p : string) : M bytes :=
  λ w, match fs w !! Path.norm p with
       | Some data => (Ok data, w)
       | None => (Raise IOError, w)
       end.

(** the directory in which a file at [p] would be made is there; the
    current directory and the root always are *)
Definition parent_exists (w : world) (p : string) : bool :=
  let d := Path.dirname p in
  String.eqb d "" || String.eqb (Path.norm d) "/" || is_dir w d.

(** [open(p, 'ab')]: the file is made when it is not there, in a
    directory that is; on a directory it raises [IsADirectoryError], and
    without the directory to make the file in [FileNotFoundError] *)
Definition open_append (p : string) : M unit :=
  λ w, if is_dir w p then (Raise IOError, w)
       else match fs w !! Path.norm p with
            | Some _ => (Ok tt, w)
            | None =>
                if parent_exists w p
                then (Ok tt, set_fs (insert (Path.norm p) []) w)
                else (Raise IOError, w)
            end.

(** [file.write(buffer)] on a handle opened for appending at [p] *)
Definition append (p : string) (buffer : bytes) : M unit :=
  λ w, match fs w !! Path.norm p with
       | Some data => (Ok tt, set_fs (insert (Path.norm p) (data ++ buffer)) w)
       | None => (Raise IOError, w)
       end.

(** writing a whole file, as [extractall] does for a member *)
Definition put (p : string) (data : bytes) : M unit :=
  λ w, if is_dir w p then (Raise IOError, w)
       else (Ok tt, set_fs (insert (Path.norm p) data) w).

(** [shutil.move(src, dst)] of a file *)
Definition move (src dst : string) : M unit :=
  λ w, match fs w !! Path.norm src with
       | None => (Raise IOError, w)
       | Some data =>
           let target :=
             if is_dir w dst
             then Path.join dst (default "" (last (Py.split (Path.norm src) "/")))
             else dst in
           (Ok tt, set_fs (λ f, <[Path.norm target := data]> (delete (Path.norm src) f)) w)
       end.

(** [os.listdir(d)] *)
Definition listdir (d : string) : M (list string) :=
  λ w, if is_dir w d then (Ok (entries w d), w) else (Raise IOError, w).

(** [os.unlink(p)]: removes a file, raises on a directory or on nothing *)
Definition unlink (p : string) : M unit :=
  λ w, match fs w !! Path.norm p with
       | Some _ => (Ok tt, set_fs (delete (Path.norm p)) w)
       | None => (Raise IOError, w)
       end.

End FS.

(** ** The network ([urllib.request]) *)

Module Net.

(** The first byte a [Range: bytes=k-] header asks for, among those the
    content has. *)
Definition range_start (value : string) (size : nat) : option nat :=
  List.find (λ k, String.eqb value ("bytes=" +:+ pretty (Z.of_nat k) +:+ "-")) (seq 0 size).

Definition header (key : string) (headers : list (string * string)) : option string :=
  snd <$> List.find (λ kv, String.eqb (fst kv) key) headers.

(** What a server that honours byte ranges answers: the whole content
    without a [Range] header, the content from byte [k] on with
    [Range: bytes=k-], and an error for a range it cannot satisfy. *)
Definition serve (content : bytes) (headers : list (string * string)) : result bytes :=
  match header "Range" headers with
  | None => Ok content
  | Some value =>
      match range_start value (length content) with
      | Some k => Ok (skipn k content)
      | None => Raise URLError
      end
  end.

(** [urllib.request.urlopen(req)]: the request goes out, and the body of
    the response is what remains to be read. *)
Definition urlopen (E : env) (req : request) : M bytes :=
  λ w, let w' := World (fs w) (dirs w) (sent w ++ [req]) (ran w) (stderr w) in
       match remote E (req_url req) with
       | None => (Raise URLError, w')
       | Some content => (serve content (req_headers req), w')
       end.

(** [urlopen(url).info()['Content-Length']] *)
Definition content_length (E : env) (url : string) : M Z :=
  λ w, let w' := World (fs w) (dirs w) (sent w ++ [Request url []]) (ran w) (stderr w) in
       match remote E url with
       | None => (Raise URLError, w')
       | Some content => (Ok (Z.of_nat (length content)), w')
       end.

End Net.

(** [executor.run_command(command)] *)
Definition executor_run (E : env) (command : list string) : M (Z * string * string) :=
  λ w, (Ok (run_command E command),
        World (fs w) (dirs w) (sent w) (ran w ++ [command]) (stderr w)).

(** ** The script *)

(** *** [checksum_matches] (lines 19-30) *)

(** [for chunk in iter(lambda: f.read(4096), b""): md5.update(chunk)] *)
Fixpoint md5_chunks (fuel : nat) (f : bytes) (md5 : MD5.t) : MD5.t :=
  match fuel with
  | O => md5
  | S fuel' =>
      let '(chunk, f') := read 4096 f in
      match chunk with
      | [] => md5
      | _ => md5_chunks fuel' f' (MD5.update md5 chunk)
      end
  end.

Definition checksum_matches (file_path original_md5 : string) : M bool :=
  let* f := FS.read_file file_path in
  let md5 := md5_chunks (S (length f)) f MD5.new in
  if String.eqb (MD5.hexdigest md5) original_md5 then ret true else ret false.

(** *** [get_buffer] (lines 40-41) and [get_file_size] (lines 46-47) *)

Definition get_buffer (res : bytes) (endpoint : string) (block_size start_pos max_range : Z)
    (file : string) : bytes * bytes :=
  read block_size res.

Definition get_file_size (E : env) (url : string) : M Z :=
  Net.content_length E url.

(** *** [get_prioritized_endpoint] (lines 62-85) *)

(** lines 80-81, the rewrite for the demo data *)
Definition demo_rewrite (url : string) : result string :=
  let elements := Py.split url "/" in
  rbind (of_index (elements !! 2%nat)) (λ e2,
  rbind (of_index (elements !! 4%nat)) (λ e4,
    Ok ("s3://" +:+ e2 +:+ "/DEMO/" +:+ e4 +:+ "/"
        +:+ Py.join "/" (Py.last_n 4 elements)))).

(** lines 79-81: the URL that is appended for [url] *)
Definition patched (url : string) : result string :=
  if Py.contains "s3://" url && Py.contains "HMDEMO" url
  then demo_rewrite url else Ok url.

(** lines 75-83: [for url in urls] for one priority [ep] *)
Fixpoint scan_urls (ep : string) (urls url_list : list string) : result (list string) :=
  match urls with
  | [] => Ok url_list
  | url :: urls' =>
      if Py.startswith url (Py.lower ep) then
        rbind (patched url) (λ url', scan_urls ep urls' (url_list ++ [url']))
      else scan_urls ep urls' url_list
  end.

(** line 74: [for ep in eps] *)
Fixpoint scan_eps (eps urls url_list : list string) : result (list string) :=
  match eps with
  | [] => Ok url_list
  | ep :: eps' => rbind (scan_urls ep urls url_list) (scan_eps eps' urls)
  end.

(** lines 66-71: the priorities in force *)
Definition priorities_in_force (priorities : string) : result (list string) :=
  let eps := Py.split priorities "," in
  rbind (of_index (head eps)) (λ ep0,
    if String.eqb ep0 "" then Ok ["HTTP"; "S3"] else Ok eps).

Definition get_prioritized_endpoint (manifest_urls priorities : string) : result (list string) :=
  let urls := Py.split manifest_urls "," in
  rbind (priorities_in_force priorities) (λ eps, scan_eps eps urls []).

(** *** [get_url_obj] (lines 214-223)

    [http_header] is a parameter of the function; the request is built
    from [url] alone. *)
Definition get_url_obj (E : env) (url : string) (http_header : list (string * string)) : M bytes :=
  try_except
    (let req := Request url [] in
     Net.urlopen E req)
    (λ _, raise (Exception "Uh oh")).

(** *** [upload2bucket] (lines 237-258) *)
(** lines 238-250: the command that is run *)
Definition gsutil_command (local_path bucket_location : string) (recursive : bool)
    : list string :=
  let bucket_formal :=
    if negb (Py.startswith bucket_location "gs://")
    then "gs://" +:+ bucket_location else bucket_location in
  let command := ["gsutil"; "cp"] in
  let command := if recursive then command ++ ["-r"] else command in
  command ++ [local_path; bucket_formal].

Definition upload2bucket (E : env) (local_path bucket_location : string) (recursive : bool) : M unit :=
  let command := gsutil_command local_path bucket_location recursive in
  let* out := executor_run E command in
  let '(exit_code, _, err) := out in
  if exit_code =? 0 then ret tt
  else
    run write_stderr err in
    raise (Exception ("Upload to GCP location " +:+ bucket_location +:+ " failed.")).

(** *** [clear_fastqs] (lines 202-207) *)
Definition clear_fastqs (destination : string) : M unit :=
  let fastqs := Path.join destination "fastqs" in
  let* entries := FS.listdir fastqs in
  for_each entries (λ entry _, FS.unlink (Path.join fastqs entry)) tt.

(** *** [untar_file] (lines 277-292) *)

(** [tarfile.open(path, "r")] followed by [tar.getmembers()] *)
Definition tarfile_open (E : env) (path : string) : M (bytes * list member) :=
  let* data := FS.read_file path in
  match tar_members E data with
  | Some ms => ret (data, ms)
  | None => raise TarError
  end.

(** [tar.extractall(tardir)]: the members are written one after the other *)
Definition extractall (E : env) (tar : bytes * list member) (tardir : string) : M unit :=
  let '(data, ms) := tar in
  let write := λ (m : member) (_ : unit), FS.put (Path.join tardir (name m)) (payload m) in
  match extract_fault E data with
  | None => for_each ms write tt
  | Some n => run for_each (firstn n ms) write tt in raise TarError
  end.

(** The local [contents] is bound by the second statement of the [try]
    block; the handler of the block only writes a message, and the
    [return contents] after it reads the local, bound or not. *)
Definition untar_file (E : env) (path : string) : M (list member) :=
  let tardir := Path.dirname path in
  let problem := write_stderr ("Problem untarring file " +:+ path +:+ Py.nl) in
  let* contents :=
    try_except
      (let* tar := tarfile_open E path in
       let contents := snd tar in
       run try_except
             (run extractall E tar tardir in
              (* Now delete the file *)
              FS.unlink path)
             (λ _, problem) in
       ret (Some contents))
      (λ _, run problem in ret None) in
  match contents with
  | Some members => ret members
  | None => raise UnboundLocalError
  end.

(** *** [untar_files_downloaded] (lines 260-275) *)
Definition untar_files_downloaded (E : env) (download_dir : string) : M (list (list member)) :=
  let download_dir := Path.join download_dir "fastqs" in
  let* entries := FS.listdir download_dir in
  for_each entries
    (λ entry collection,
       if Py.endswith entry ".tar" then
         let* files := untar_file E (Path.join download_dir entry) in
         ret (collection ++ [files])
       else ret collection)
    [].

(** *** [download_manifest] (lines 87-200) *)

Record mfile := MFile {
  id : string; md5 : string; size : string; sample_id : string; urls : string
}.

(** line 107: the name of the file to download to *)
Definition target_path (destination url0 : string) : result string :=
  rbind (Py.last_item (Py.split url0 "/")) (λ base,
    Ok (destination +:+ "/fastqs/" +:+ base)).

(** line 114 *)
Definition partial_path (file_name : string) : string := file_name +:+ ".partial".

(** lines 131-141: the candidates are tried in order until one answers *)
Fixpoint connect (E : env) (url_list : list string) (http_header : list (string * string))
    (eps : list string) : M (option (bytes * string * string) * list string) :=
  match url_list with
  | [] => ret (None, eps)
  | url :: url_list' =>
      let* scheme := lift (of_index (head (Py.split url ":"))) in
      let endpoint := Py.upper scheme in
      let endpoint := if String.eqb endpoint "HTTPS" then "HTTP" else endpoint in
      let eps := eps ++ [endpoint] in
      try_except
        (let* res := get_url_obj E url http_header in
         ret (Some (res, url, endpoint), eps))
        (λ _, connect E url_list' http_header eps)
  end.

(** lines 154-166: the transfer loop; it returns [current_byte] *)
Fixpoint transfer (fuel : nat) (res : bytes) (endpoint : string)
    (block_size current_byte file_size : Z) (file : string) : M Z :=
  match fuel with
  | O => ret current_byte
  | S fuel' =>
      let '(buffer, res') := get_buffer res endpoint block_size current_byte file_size file in
      match buffer with
      | [] => ret current_byte
      | _ =>
          run FS.append file buffer in
          let current_byte := current_byte + Z.of_nat (length buffer) in
          (* int(current_byte * 100 / file_size) *)
          if file_size =? 0 then raise ZeroDivisionError
          else transfer fuel' res' endpoint block_size current_byte file_size file
      end
  end.

(** lines 114-169: what is done for a file that is not there yet.  The
    result is [None] when no URL yielded an object, and otherwise the
    final [current_byte] and [file_size]. *)
Definition download (E : env) (url_list : list string) (file_name : string) (block_size : Z)
    : M (option (Z * Z)) :=
  let tmp_file_name := partial_path file_name in
  let* partial := FS.exists_ tmp_file_name in
  let* current_byte := if partial then FS.getsize tmp_file_name else ret 0 in
  let http_header := [("Range", "bytes=" +:+ pretty current_byte +:+ "-")] in
  let* found := connect E url_list http_header [] in
  match fst found with
  | None => ret None
  | Some (res, url, endpoint) =>
      run FS.open_append tmp_file_name in
      let* file_size := get_file_size E url in
      let* current_byte :=
        transfer (S (length res)) res endpoint block_size current_byte file_size tmp_file_name in
      run FS.move tmp_file_name file_name in
      ret (Some (current_byte, file_size))
  end.

Abbreviation file_group := (list (list member)).

(** lines 191-198: the upload of the run directory and what follows it *)
Definition upload_stage (E : env) (destination bucket : string)
    (st : list Z * list file_group) : M (list Z * list file_group) :=
  let* uploaded :=
    try_except
      (run upload2bucket E destination bucket true in ret true)
      (λ e,
         run write_stderr ("Error uploading the data to firecloud: " +:+ exn_str e +:+ "." +:+ Py.nl) in
         ret false) in
  if uploaded
  then run clear_fastqs destination in ret st
  else ret st.

(** lines 171-198: what follows the download of [file_name]; these lines
    are inside the [with] block of line 148 *)
Definition after_download (E : env) (mf : mfile) (destination bucket file_name : string)
    (no_verify : bool) (st : list Z * list file_group) : M (list Z * list file_group) :=
  let '(failed_files, file_groups) := st in
  let* failed_files :=
    if no_verify then ret failed_files
    else
      let* ok := checksum_matches file_name (md5 mf) in
      if ok then ret failed_files else ret (failed_files ++ [3]) in
  let* extracted :=
    try_except
      (let* file_group := untar_files_downloaded E destination in ret (Some file_group))
      (λ e,
         run write_stderr ("Errors encountered untarring data: " +:+ exn_str e +:+ "." +:+ Py.nl) in
         run clear_fastqs destination in
         ret None) in
  match extracted with
  | None => ret (failed_files, file_groups)
  | Some file_group =>
      let file_groups := file_groups ++ [file_group] in
      upload_stage E destination bucket (failed_files, file_groups)
  end.

(** the body of the loop over the manifest (lines 98-198) *)
Definition manifest_entry (E : env) (destination bucket : string) (no_verify : bool)
    (block_size : Z) (mf : mfile) (st : list Z * list file_group)
    : M (list Z * list file_group) :=
  let '(failed_files, file_groups) := st in
  let* url_list := lift (get_prioritized_endpoint (urls mf) "") in
  match url_list with
  | [] => ret (failed_files ++ [1], file_groups)
  | url0 :: _ =>
      let* file_name := lift (target_path destination url0) in
      let* present := FS.exists_ file_name in
      if present then ret st
      else
        let* got := download E url_list file_name block_size in
        match got with
        | None => ret (failed_files ++ [2], file_groups)
        | Some _ => after_download E mf destination bucket file_name no_verify st
        end
  end.

Definition download_manifest (E : env) (manifest : list mfile) (destination bucket : string)
    (no_verify : bool) (block_size : Z) : M (list file_group) :=
  let* st := for_each manifest (manifest_entry E destination bucket no_verify block_size) ([], []) in
  ret (snd st).

(** *** [create_descriptor] (lines 294-342)

    The locals of the function that live across iterations: [r1], [r2] and
    [i1] are reset for every element of [file_groups] (lines 306-308), and
    [name] is whatever was assigned last, if anything. *)
Record locals := Locals {
  r1 : option string;
  r2 : option string;
  i1 : option string;
  name_var : option string
}.

(** what the function writes: lines to [sample_fh], strings to [sys.stderr] *)
Record output := Output {
  sample_lines : list string;
  reports : list string
}.

(** lines 312-322, for one member of a group *)
Definition note_member (l : locals) (m : member) : locals :=
  let nm := name m in
  let l := Locals (r1 l) (r2 l) (i1 l) (Some nm) in
  if Py.endswith nm ".fastq.gz" then
    if Py.contains "_R1_" nm then Locals (Some nm) (r2 l) (i1 l) (name_var l)
    else if Py.contains "_R2_" nm then Locals (r1 l) (Some nm) (i1 l) (name_var l)
    else if Py.contains "_I1_" nm then Locals (r1 l) (r2 l) (Some nm) (name_var l)
    else l
  else l.

(** lines 332-333: [for tarfile in group: name = tarfile.name] *)
Definition rebind_name (l : locals) (m : member) : locals :=
  Locals (r1 l) (r2 l) (i1 l) (Some (name m)).

(** lines 311-338, for one group *)
Definition group_step (group : list member) (st : locals * output) : result (locals * output) :=
  let '(l, out) := st in
  let l := fold_left note_member group l in
  match r1 l, r2 l, i1 l with
  | Some a, Some b, Some c =>
      rbind (of_index (head (Py.split a "_R1_"))) (λ sample,
        let sample_line := Py.join Py.tab [sample; a; b; c] +:+ Py.nl in
        Ok (l, Output (sample_lines out ++ [sample_line]) (reports out)))
  | _, _, _ =>
      let names : list string := [] in
      let l := fold_left rebind_name group l in
      (* [names.append(name)] comes after the loop *)
      rbind (match name_var l with Some nm => Ok nm | None => Raise UnboundLocalError end)
        (λ nm,
           let names := names ++ [nm] in
           Ok (l, Output (sample_lines out)
                    (reports out
                       ++ ["Group did not contain 1 each of R1, R2 and I1 files." +:+ Py.nl;
                           Py.join Py.nl names +:+ Py.nl])))
  end.

Fixpoint group_steps (group_list : list (list member)) (st : locals * output)
    : result (locals * output) :=
  match group_list with
  | [] => Ok st
  | group :: rest => rbind (group_step group st) (group_steps rest)
  end.

(** lines 304-338, for one element of [file_groups] *)
Definition group_list_step (group_list : file_group) (st : option string * output)
    : result (option string * output) :=
  let '(nv, out) := st in
  rbind (group_steps group_list (Locals None None None nv, out))
    (λ st', Ok (name_var (fst st'), snd st')).

Fixpoint group_lists (file_groups : list file_group) (st : option string * output)
    : result (option string * output) :=
  match file_groups with
  | [] => Ok st
  | group_list :: rest => rbind (group_list_step group_list st) (group_lists rest)
  end.

(** The result is the path of the descriptor with what was written. *)
Definition create_descriptor (file_groups : list file_group) (directory timestamp : string)
    : result (string * output) :=
  let sample_file_path := Path.join directory ("sample-" +:+ timestamp +:+ ".txt") in
  rbind (group_lists file_groups (None, Output [] []))
    (λ st, Ok (sample_file_path, snd st)).

(** ** Vocabulary of the properties *)

(** The bucket of a priority: the URLs that start with its lowercased
    name, in the order of the manifest (the test of line 76). *)
Definition bucket (ep : string) (urls : list string) : list string :=
  List.filter (λ url, Py.startswith url (Py.lower ep)) urls.

(** The scheme of a URL, as line 132 takes it: [url.split(':')[0]]. *)
Definition scheme (url : string) : string :=
  default "" (head (Py.split url ":")).

(** A scheme written in uppercase: it begins with a capital letter and has
    no small letter. *)
Definition uppercase_scheme (url : string) : bool :=
  match scheme url with
  | String c _ =>
      Py.is_upper c
      && forallb (λ c, negb (Py.is_lower c)) (list_ascii_of_string (scheme url))
  | EmptyString => false
  end.

(** The target path an entry of the manifest computes (lines 98-107);
    [None] when the entry has no candidate URL. *)
Definition entry_target (destination : string) (mf : mfile) : result (option string) :=
  rbind (get_prioritized_endpoint (urls mf) "") (λ url_list,
    match url_list with
    | [] => Ok None
    | url0 :: _ => rbind (target_path destination url0) (λ file_name, Ok (Some file_name))
    end).

(** The three roles of the files of a sample. *)
Inductive role : Type := R1 | R2 | I1.

(** The role the script gives a member name (lines 314-320): the name
    must end in [.fastq.gz], and the first marker found decides. *)
Definition role_of (nm : string) : option role :=
  if Py.endswith nm ".fastq.gz" then
    if Py.contains "_R1_" nm then Some R1
    else if Py.contains "_R2_" nm then Some R2
    else if Py.contains "_I1_" nm then Some I1
    else None
  else None.

Definition has_role (r : role) (nm : string) : bool :=
  match role_of nm, r with
  | Some R1, R1 | Some R2, R2 | Some I1, I1 => true
  | _, _ => false
  end.

(** the member names of a role in a group, in the order of the group *)
Definition names_of (r : role) (group : list member) : list string :=
  List.filter (has_role r) (map name group).

(** the last element of a list, or else a value held before *)
Definition latest (o : option string) (l : list string) : option string :=
  match last l with
  | Some x => Some x
  | None => o
  end.

(** the first line the script writes to [sys.stderr] for a group it does
    not emit (line 336) *)
Definition not_one_each : string :=
  "Group did not contain 1 each of R1, R2 and I1 files." +:+ Py.nl.

(** the requests that [urlopen] receives when the URLs are tried in turn:
    [get_url_obj] builds each from the URL alone (line 219) *)
Definition requests_for (urls : list string) : list request :=
  map (λ u, Request u []) urls.

(** An entry that [download_manifest] passes over: it has no candidate
    URL (line 98), or its target is already on disk (lines 110-112). *)
Definition nothing_to_fetch (w : world) (destination : string) (mf : mfile) : Prop :=
  get_prioritized_endpoint (urls mf) "" = Ok []
  ∨ ∃ url0 rest file_name,
      get_prioritized_endpoint (urls mf) "" = Ok (url0 :: rest)
      ∧ target_path destination url0 = Ok file_name
      ∧ FS.is_file w file_name || FS.is_dir w file_name = true.

(** ** A small world for the examples

    One URL serves an archive of two bytes; [tarfile] finds the three
    files of a sample in any file; extraction stops after [fault] members
    when [fault] is given; [gsutil] ends with [exit_code]. *)
Definition sample_members : list member :=
  [ Member "s_R1_001.fastq.gz" ["1"]%byte;
    Member "s_R2_001.fastq.gz" ["2"]%byte;
    Member "s_I1_001.fastq.gz" ["3"]%byte ].

Definition sample_env (fault : option nat) (exit_code : Z) : env :=
  Env (λ url, if String.eqb url "http://h/a.tar" then Some ["A"; "B"]%byte else None)
      (λ _, Some sample_members)
      (λ _, fault)
      (λ _, (exit_code, "", "AccessDenied")).

(** the run directory [d] with its [fastqs] directory and some files *)
Definition staging (files : list (string * bytes)) : world :=
  World (list_to_map files) ["d"; "d/fastqs"] [] [] [].

Definition sample_entry : mfile :=
  MFile "id1" "b86fc6b051f63d73de262d4c34e3a0a9" "2" "s" "http://h/a.tar".

(** Two files of 72 bytes that differ in one byte, the one at index 21
    ([A] in the first, [E] in the second), and have the same MD5 digest
    (M. Stevens, 2024). *)
Definition collision_first : bytes :=
  list_byte_of_string
    "TEXTCOLLBYfGiJUETHQ4hAcKSMd5zYpgqf1YRDhkmxHkhPWptrkoyz28wnI9V0aHeAuaKnak".

Definition collision_second : bytes := <[21%nat := "E"%byte]> collision_first.

(* ===================================================================== *)
(** * Part II: properties                                                 *)
(* ===================================================================== *)

(** ** Checks of the embedding *)

(** closes a goal, or a conjunction of goals, that holds by evaluation *)
Ltac evaluated :=
  cbv zeta; repeat match goal with |- _ ∧ _ => split end; vm_compute; reflexivity.

(** enters the first [bind] of the goal and the primitive [f] under it *)
Tactic Notation "enter" reference(f) := unfold bind at 1; unfold f at 1.

(** The digest is MD5: the test suite of RFC 1321, section A.5. *)
Example md5_of_empty : MD5.hexdigest [] = "d41d8cd98f00b204e9800998ecf8427e".
Proof. evaluated. Qed.

Example md5_of_a : MD5.hexdigest ["a"]%byte = "0cc175b9c0f1b6a831c399e269772661".
Proof. evaluated. Qed.

Example md5_of_abc :
  MD5.hexdigest ["a"; "b"; "c"]%byte = "900150983cd24fb0d6963f7d28e17f72".
Proof. evaluated. Qed.

Example md5_of_message_digest :
  MD5.hexdigest ["m"; "e"; "s"; "s"; "a"; "g"; "e"; " "; "d"; "i"; "g"; "e"; "s"; "t"]%byte
  = "f96b697d7cb7938d525a2f31aaf161d0".
Proof. evaluated. Qed.

(** more than one block of 64 bytes *)
Example md5_of_eighty_digits :
  MD5.hexdigest (concat (repeat ["1"; "2"; "3"; "4"; "5"; "6"; "7"; "8"; "9"; "0"]%byte 8))
  = "57edf4a22be3c955ac49da2e2107b67a".
Proof. evaluated. Qed.

(** The string primitives behave as Python's. *)
Example split_commas : Py.split "a,b,,c" "," = ["a"; "b"; ""; "c"].
Proof. reflexivity. Qed.

Example split_of_empty : Py.split "" "," = [""].
Proof. reflexivity. Qed.

Example split_trailing : Py.split "HTTP," "," = ["HTTP"; ""].
Proof. reflexivity. Qed.

Example split_marker : Py.split "x_R1_y_R1_z" "_R1_" = ["x"; "y"; "z"].
Proof. reflexivity. Qed.

Example split_url :
  Py.split "s3://b/HMDEMO/x/y/z/w" "/" = ["s3:"; ""; "b"; "HMDEMO"; "x"; "y"; "z"; "w"].
Proof. reflexivity. Qed.

Example lower_of_mixed : Py.lower "HTTP s3 Az[`{@" = "http s3 az[`{@".
Proof. reflexivity. Qed.

Example last_four : Py.last_n 4 ["a"; "b"; "c"; "d"; "e"] = ["b"; "c"; "d"; "e"].
Proof. reflexivity. Qed.

Example dirname_of_archive : Path.dirname "d/fastqs/a.tar" = "d/fastqs".
Proof. reflexivity. Qed.

(** The rewrite of lines 80-81 on a demo URL, and the [IndexError] of a
    demo URL that is too short. *)
Example demo_url_rewritten :
  get_prioritized_endpoint "s3://b/HMDEMO/x/y/z/w" "" = Ok ["s3://b/DEMO/x/x/y/z/w"].
Proof. reflexivity. Qed.

Example demo_url_too_short : get_prioritized_endpoint "s3://HMDEMO" "" = Raise IndexError.
Proof. reflexivity. Qed.

Example default_order :
  get_prioritized_endpoint "s3://b/k,http://h/f.tar,https://h2/f.tar" ""
  = Ok ["http://h/f.tar"; "https://h2/f.tar"; "s3://b/k"].
Proof. reflexivity. Qed.

(** The server behind [urlopen] honours a range when it is asked for one. *)
Example range_is_served :
  Net.serve ["A"; "B"; "C"]%byte [("Range", "bytes=1-")] = Ok ["B"; "C"]%byte.
Proof. evaluated. Qed.

(** A download that starts with no partial file: the content is what
    was written to the target, and the cursor ends at the total. *)
Example fresh_download :
  let outcome := download (sample_env None 0) ["http://h/a.tar"] "d/fastqs/a.tar" 1000000
                   (staging []) in
  fst outcome = Ok (Some (2, 2))
  ∧ fs (snd outcome) !! "d/fastqs/a.tar" = Some ["A"; "B"]%byte
  ∧ fs (snd outcome) !! "d/fastqs/a.tar.partial" = None.
Proof. evaluated. Qed.

(** A target that is there already: nothing is requested. *)
Example present_target_is_skipped :
  let outcome := manifest_entry (sample_env None 0) "d" "b" false 1000000 sample_entry
                   ([], []) (staging [("d/fastqs/a.tar", ["A"]%byte)]) in
  fst outcome = Ok ([], []) ∧ sent (snd outcome) = [].
Proof. evaluated. Qed.

(** ** Strings *)

Section StringFacts.

Implicit Types s t p sep : string.

Lemma append_nil s : "" +:+ s = s.
Proof. reflexivity. Qed.

Lemma append_cons c s t : String c s +:+ t = String c (s +:+ t).
Proof. reflexivity. Qed.

Lemma prefix_empty s : String.prefix "" s = true.
Proof. destruct s; reflexivity. Qed.

Lemma prefix_append p t : String.prefix p (p +:+ t) = true.
Proof.
  induction p as [|c p IH]; [apply prefix_empty|].
  rewrite append_cons. simpl.
  destruct (ascii_dec c c); [apply IH | congruence].
Qed.

Lemma prefix_drop p s :
  String.prefix p s = true → s = p +:+ Py.drop (String.length p) s.
Proof.
  revert s; induction p as [|c p IH]; intros s H; [reflexivity|].
  destruct s as [|d s]; simpl in H; [discriminate|].
  destruct (ascii_dec c d) as [->|]; [|discriminate].
  rewrite append_cons. simpl. f_equal. apply IH, H.
Qed.

Lemma length_append s t :
  String.length (s +:+ t) = (String.length s + String.length t)%nat.
Proof. induction s; rewrite ?append_nil, ?append_cons; simpl; congruence. Qed.

Lemma append_cancel_r s t p : s +:+ p = t +:+ p → s = t.
Proof.
  revert t; induction s as [|c s IH]; intros [|d t] H;
    rewrite ?append_nil, ?append_cons in H.
  - reflexivity.
  - apply (f_equal String.length) in H. simpl in H. rewrite length_append in H. lia.
  - apply (f_equal String.length) in H. simpl in H. rewrite length_append in H. lia.
  - injection H as -> H. f_equal. apply IH, H.
Qed.

Lemma cut_unfold s sep :
  Py.cut s sep =
  if String.prefix sep s then Some ("", Py.drop (String.length sep) s)
  else match s with
       | "" => None
       | String c s' =>
           match Py.cut s' sep with
           | Some (a, b) => Some (String c a, b)
           | None => None
           end
       end.
Proof. destruct s; reflexivity. Qed.

Lemma contains_unfold sub s :
  Py.contains sub s =
  String.prefix sub s || match s with "" => false | String _ s' => Py.contains sub s' end.
Proof. destruct s; reflexivity. Qed.

Lemma cut_Some s sep a b :
  Py.cut s sep = Some (a, b) → s = a +:+ sep +:+ b.
Proof.
  revert a; induction s as [|c s IH]; intros a H; rewrite cut_unfold in H;
    destruct (String.prefix sep _) eqn:P;
    try (injection H as <- <-; apply (prefix_drop _ _ P)); try discriminate.
  destruct (Py.cut s sep) as [[a' b']|] eqn:C; [|discriminate].
  injection H as <- <-. rewrite append_cons. f_equal. apply IH. reflexivity.
Qed.

(** [cut] stops at the first occurrence of the separator. *)
Lemma cut_first s sep a b :
  Py.cut s sep = Some (a, b) →
  ∀ a' b', s = a' +:+ sep +:+ b' → (String.length a ≤ String.length a')%nat.
Proof.
  revert a; induction s as [|c s IH]; intros a H a' b' E; rewrite cut_unfold in H;
    destruct (String.prefix sep _) eqn:P;
    try (injection H as <- <-; simpl; lia); try discriminate.
  destruct (Py.cut s sep) as [[a0 b0]|] eqn:C; [|discriminate].
  injection H as <- <-.
  destruct a' as [|d a'].
  - rewrite append_nil in E. rewrite E, prefix_append in P. discriminate.
  - rewrite append_cons in E. injection E as -> E. simpl.
    specialize (IH a0 eq_refl a' b' E). lia.
Qed.

Lemma contains_cut sub s :
  Py.contains sub s = true → ∃ a b, Py.cut s sub = Some (a, b).
Proof.
  induction s as [|c s IH]; intros H; rewrite contains_unfold in H;
    rewrite cut_unfold; destruct (String.prefix sub _); eauto; simpl in H;
    try discriminate.
  destruct (IH H) as (a & b & ->). eauto.
Qed.

Lemma cut_contains s sep a b :
  Py.cut s sep = Some (a, b) → Py.contains sep s = true.
Proof.
  revert a; induction s as [|c s IH]; intros a H; rewrite cut_unfold in H;
    rewrite contains_unfold; destruct (String.prefix sep _); try reflexivity;
    try discriminate.
  destruct (Py.cut s sep) as [[a' b']|] eqn:C; [|discriminate].
  injection H as <- <-. simpl. eapply IH. reflexivity.
Qed.

(** What [s.split(sep)[0]] is. *)
Lemma split_head_cut s sep a b :
  Py.cut s sep = Some (a, b) → s ≠ "" → head (Py.split s sep) = Some a.
Proof.
  intros C Hs. unfold Py.split. destruct s as [|c s]; [congruence|].
  cbn [String.length Py.split_fuel]. rewrite C. reflexivity.
Qed.

Lemma split_head_none s sep :
  Py.cut s sep = None → Py.split s sep = [s].
Proof.
  intros C. unfold Py.split. destruct (String.length s); simpl; [reflexivity|].
  rewrite C. reflexivity.
Qed.

Lemma split_nonempty s sep : Py.split s sep ≠ [].
Proof.
  unfold Py.split. destruct (String.length s); simpl; [congruence|].
  destruct (Py.cut s sep) as [[a b]|]; congruence.
Qed.

(** The fuel of [split] is enough: with a non-empty separator every cut
    shortens the string, so more fuel changes nothing. *)
Lemma cut_shorter s sep a b :
  sep ≠ "" → Py.cut s sep = Some (a, b) → (String.length b < String.length s)%nat.
Proof.
  intros Hsep C. apply cut_Some in C. subst s.
  rewrite !length_append. destruct sep; [congruence|]. simpl. lia.
Qed.

Lemma split_fuel_enough sep : sep ≠ "" →
  ∀ n s, (String.length s ≤ n)%nat → Py.split_fuel n s sep = Py.split s sep.
Proof.
  intros Hsep. unfold Py.split.
  induction n as [n IH] using lt_wf_ind. intros s Hn.
  destruct n as [|n].
  - replace (String.length s) with 0%nat by lia. reflexivity.
  - destruct (String.length s) as [|m] eqn:L; simpl.
    + destruct (Py.cut s sep) as [[a b]|] eqn:C; [|reflexivity].
      apply (cut_shorter _ _ _ _ Hsep) in C. lia.
    + destruct (Py.cut s sep) as [[a b]|] eqn:C; [|reflexivity].
      pose proof (cut_shorter _ _ _ _ Hsep C) as Hb. f_equal.
      rewrite (IH n) by lia. rewrite (IH m) by lia. reflexivity.
Qed.

Lemma lower_char_not_upper c : Py.is_upper (Py.lower_char c) = false.
Proof.
  destruct c as [b0 b1 b2 b3 b4 b5 b6 b7].
  destruct b0, b1, b2, b3, b4, b5, b6, b7; vm_compute; reflexivity.
Qed.

End StringFacts.

(** ** The endpoint selector *)

Section Selector.

Lemma scan_urls_spec ep urls url_list :
  scan_urls ep urls url_list
  = rbind (rmap patched (bucket ep urls)) (λ l, Ok (url_list ++ l)).
Proof.
  revert url_list; induction urls as [|url urls IH]; intros url_list; simpl.
  - rewrite app_nil_r. reflexivity.
  - destruct (Py.startswith url (Py.lower ep)); simpl; [|apply IH].
    destruct (patched url) as [url'|e]; simpl; [|reflexivity].
    rewrite IH. destruct (rmap patched (bucket ep urls)); simpl; [|reflexivity].
    rewrite <- app_assoc. reflexivity.
Qed.

Lemma rmap_app {A B} (f : A → result B) l1 l2 :
  rmap f (l1 ++ l2)
  = rbind (rmap f l1) (λ a, rbind (rmap f l2) (λ b, Ok (a ++ b))).
Proof.
  induction l1 as [|x l1 IH]; simpl.
  - destruct (rmap f l2); reflexivity.
  - destruct (f x); simpl; [|reflexivity]. rewrite IH.
    destruct (rmap f l1); simpl; [|reflexivity].
    destruct (rmap f l2); reflexivity.
Qed.

Lemma scan_eps_spec eps urls url_list :
  scan_eps eps urls url_list
  = rbind (rmap patched (flat_map (λ ep, bucket ep urls) eps))
          (λ l, Ok (url_list ++ l)).
Proof.
  revert url_list; induction eps as [|ep eps IH]; intros url_list; simpl.
  - rewrite app_nil_r. reflexivity.
  - rewrite scan_urls_spec, rmap_app.
    destruct (rmap patched (bucket ep urls)); simpl; [|reflexivity].
    rewrite IH.
    destruct (rmap patched (flat_map _ eps)); simpl; [|reflexivity].
    rewrite <- app_assoc. reflexivity.
Qed.

Lemma rmap_patched_plain urls :
  Forall (λ url, Py.contains "s3://" url && Py.contains "HMDEMO" url = false) urls →
  rmap patched urls = Ok urls.
Proof.
  induction 1 as [|url urls H _ IH]; simpl; [reflexivity|].
  unfold patched at 1. rewrite H. simpl. rewrite IH. reflexivity.
Qed.

Lemma priorities_in_force_total priorities :
  ∃ eps, priorities_in_force priorities = Ok eps.
Proof.
  unfold priorities_in_force.
  destruct (Py.split priorities ",") as [|ep0 eps] eqn:S.
  - exfalso. exact (split_nonempty _ _ S).
  - simpl. destruct (String.eqb ep0 ""); eauto.
Qed.

Lemma lower_empty ep : Py.lower ep = "" → ep = "".
Proof. destruct ep; [reflexivity | discriminate]. Qed.

Lemma bucket_of_nothing ep : ep ≠ "" → bucket ep [""] = [].
Proof.
  intros H. unfold bucket, Py.startswith. simpl.
  destruct (Py.lower ep) eqn:L; [|reflexivity].
  apply lower_empty in L. congruence.
Qed.

Lemma flat_map_nothing eps :
  Forall (λ ep, ep ≠ "") eps → flat_map (λ ep, bucket ep [""]) eps = [].
Proof.
  induction 1 as [|ep eps H _ IH]; cbn [flat_map]; [reflexivity|].
  rewrite (bucket_of_nothing _ H), IH. reflexivity.
Qed.

Lemma scheme_first_char url c r :
  scheme url = String c r → ∃ rest, url = String c rest.
Proof.
  unfold scheme. intros H.
  destruct (Py.cut url ":") as [[a b]|] eqn:C.
  - destruct url as [|d url]; [discriminate|].
    rewrite (split_head_cut _ _ _ _ C) in H by discriminate. simpl in H. subst a.
    apply cut_Some in C. rewrite append_cons in C. eauto.
  - rewrite (split_head_none _ _ C) in H. simpl in H. eauto.
Qed.

Lemma uppercase_never_starts url ep :
  uppercase_scheme url = true → ep ≠ "" → Py.startswith url (Py.lower ep) = false.
Proof.
  unfold uppercase_scheme. intros U Hep.
  destruct (scheme url) as [|c r] eqn:S; [discriminate|].
  apply andb_true_iff in U as [U _].
  destruct (scheme_first_char _ _ _ S) as [rest ->].
  destruct ep as [|d ep]; [congruence|].
  unfold Py.startswith, Py.lower. simpl.
  destruct (ascii_dec (Py.lower_char d) c) as [<-|]; [|reflexivity].
  rewrite lower_char_not_upper in U. discriminate.
Qed.

End Selector.

(** C4, as the code has it.  For every raw URL list and every priority
    string the selector computes the concatenation, in the order of the
    priorities in force, of their buckets; a bucket holds the URLs that
    start with the lowercased priority name, in manifest order, each
    passed through the rewrite of lines 79-81 (when no URL is a demo URL
    the buckets hold the URLs themselves).  An empty raw URL list gives an
    empty result provided no priority name in force is empty, and an empty
    priority string puts HTTP before S3. *)
Theorem selector_groups_by_priority (manifest_urls priorities : string) :
  ∃ eps,
    priorities_in_force priorities = Ok eps
    ∧ get_prioritized_endpoint manifest_urls priorities
      = rmap patched (flat_map (λ ep, bucket ep (Py.split manifest_urls ",")) eps)
    ∧ (Forall (λ url, Py.contains "s3://" url && Py.contains "HMDEMO" url = false)
         (Py.split manifest_urls ",") →
       get_prioritized_endpoint manifest_urls priorities
       = Ok (flat_map (λ ep, bucket ep (Py.split manifest_urls ",")) eps))
    ∧ (manifest_urls = "" → Forall (λ ep, ep ≠ "") eps →
       get_prioritized_endpoint manifest_urls priorities = Ok [])
    ∧ (priorities = "" → eps = ["HTTP"; "S3"]).
Proof.
  destruct (priorities_in_force_total priorities) as [eps Heps].
  exists eps.
  assert (G : get_prioritized_endpoint manifest_urls priorities
              = rmap patched (flat_map (λ ep, bucket ep (Py.split manifest_urls ",")) eps)).
  { unfold get_prioritized_endpoint. rewrite Heps. simpl.
    rewrite scan_eps_spec. destruct (rmap patched _); reflexivity. }
  repeat split; try assumption.
  - intros Hplain. rewrite G. apply rmap_patched_plain.
    clear -Hplain. induction eps as [|ep eps IH]; simpl; [constructor|].
    apply Forall_app. split; [|exact IH].
    unfold bucket. rewrite Forall_forall in Hplain |- *.
    intros url Hin. apply Hplain. apply list_elem_of_In.
    apply list_elem_of_In in Hin. apply filter_In in Hin. tauto.
  - intros -> Hne. rewrite G.
    change (Py.split "" ",") with [""]. rewrite (flat_map_nothing _ Hne). reflexivity.
  - intros ->. vm_compute in Heps. congruence.
Qed.

(** The theorem at a list in which every priority is named. *)
Lemma selector_groups_by_priority_witness :
  get_prioritized_endpoint "" "S3,HTTP" = Ok [].
Proof.
  destruct (selector_groups_by_priority "" "S3,HTTP") as (eps & Heps & _ & _ & Hempty & _).
  apply Hempty; [reflexivity|].
  vm_compute in Heps. injection Heps as <-.
  repeat constructor; discriminate.
Defined.

(** C4 as stated fails: with the priorities [HTTP,] the second name is
    empty, every string starts with it, and the empty raw URL list gives a
    list of one (empty) URL. *)
Lemma selector_empty_list_counterexample :
  get_prioritized_endpoint "" "HTTP," = Ok [""]
  ∧ get_prioritized_endpoint "" "HTTP," ≠ Ok [].
Proof. split; [vm_compute; reflexivity | vm_compute; discriminate]. Qed.

(** C10, as the code has it.  Matching is by prefix on the lowercased
    priority name: with the priorities [HTTP,HTTPS] an [https://] URL is in
    both buckets and comes out twice; and a URL whose scheme is written in
    uppercase starts with no lowercased priority name other than the empty
    one, so it is in the bucket of no named priority. *)
Theorem selector_matches_by_prefix :
  get_prioritized_endpoint "https://h/f.tar" "HTTP,HTTPS"
  = Ok ["https://h/f.tar"; "https://h/f.tar"]
  ∧ (∀ url ep : string,
       uppercase_scheme url = true → ep ≠ "" →
       Py.startswith url (Py.lower ep) = false
       ∧ ∀ urls : list string, ¬ In url (bucket ep urls)).
Proof.
  split; [vm_compute; reflexivity|].
  intros url ep U Hep.
  pose proof (uppercase_never_starts _ _ U Hep) as Hno.
  split; [exact Hno|].
  intros urls Hin. apply filter_In in Hin as [_ Hin]. congruence.
Qed.

Lemma selector_matches_by_prefix_witness :
  Py.startswith "HTTP://h/f.tar" (Py.lower "HTTP") = false.
Proof.
  apply (proj2 selector_matches_by_prefix "HTTP://h/f.tar" "HTTP").
  - vm_compute. reflexivity.
  - discriminate.
Defined.

(** C10 as stated fails: an empty priority name is a prefix of every URL,
    one in uppercase included. *)
Lemma selector_uppercase_counterexample :
  uppercase_scheme "HTTP://h/f.tar" = true
  ∧ Py.startswith "HTTP://h/f.tar" (Py.lower "") = true
  ∧ get_prioritized_endpoint "HTTP://h/f.tar" "S3," = Ok ["HTTP://h/f.tar"].
Proof. evaluated. Qed.

(** ** The checksum verifier *)

Section Checksum.

(** Cutting a message into blocks loses nothing of it. *)
Lemma md5_blocks_complete (n : nat) : (0 < n)%nat →
  ∀ fuel (l : list Z), (length l ≤ fuel)%nat → concat (MD5.chunks fuel n l) = l.
Proof.
  intros Hn. induction fuel as [|fuel IH]; intros l Hlen.
  - destruct l; [reflexivity | simpl in Hlen; lia].
  - destruct l as [|x l]; [reflexivity|].
    cbn [MD5.chunks concat]. rewrite IH.
    + apply firstn_skipn.
    + rewrite length_skipn. simpl in *. lia.
Qed.

(** Reading by chunks feeds the digest the whole stream, and the fuel of
    the loop is never used up. *)
Lemma md5_chunks_all fuel (f : bytes) (m : MD5.t) :
  (length f < fuel)%nat → md5_chunks fuel f m = MD5.update m f.
Proof.
  revert f m; induction fuel as [|fuel IH]; intros f m Hlen; [lia|].
  cbn [md5_chunks]. unfold read.
  change (4096 <? 0) with false. cbv iota.
  remember (Z.to_nat 4096) as n eqn:Hn.
  assert (Hpos : (0 < n)%nat) by lia. clear Hn.
  destruct (firstn n f) as [|b chunk] eqn:F.
  - destruct f as [|b f]; [|destruct n; [lia | discriminate]].
    unfold MD5.update. rewrite app_nil_r. reflexivity.
  - rewrite <- F. rewrite IH.
    + unfold MD5.update. rewrite <- app_assoc, firstn_skipn. reflexivity.
    + rewrite length_skipn. destruct f; [destruct n; discriminate|]. simpl in *. lia.
Qed.

Lemma checksum_matches_spec (w : world) file_path original_md5 content :
  fs w !! Path.norm file_path = Some content →
  checksum_matches file_path original_md5 w
  = (Ok (String.eqb (MD5.hexdigest (MD5.update MD5.new content)) original_md5), w).
Proof.
  intros H. unfold checksum_matches, bind, FS.read_file. rewrite H.
  rewrite md5_chunks_all by lia.
  destruct (String.eqb _ _); reflexivity.
Qed.

End Checksum.

(** C2, as the code has it.  On a file that is there, the verifier returns
    true exactly when the hexadecimal MD5 digest of the file's bytes, as
    [hexdigest] writes it, is the expected string itself: the comparison
    is by equality of strings.  The world is left as it was.  When the
    file is accepted and its content is then changed, in one byte or in
    more, the changed file is refused against the same expected string
    when the change alters the MD5 digest, and accepted when it does
    not. *)
Theorem verifier_compares_exactly (w : world) (file_path original_md5 : string)
    (content : bytes) :
  fs w !! Path.norm file_path = Some content →
  ∃ b : bool,
    checksum_matches file_path original_md5 w = (Ok b, w)
    ∧ (b = true ↔ MD5.hexdigest (MD5.update MD5.new content) = original_md5)
    ∧ (∀ (w' : world) (content' : bytes),
         fs w' !! Path.norm file_path = Some content' →
         b = true →
         (MD5.hexdigest (MD5.update MD5.new content')
          ≠ MD5.hexdigest (MD5.update MD5.new content) →
          checksum_matches file_path original_md5 w' = (Ok false, w'))
         ∧ (MD5.hexdigest (MD5.update MD5.new content')
            = MD5.hexdigest (MD5.update MD5.new content) →
            checksum_matches file_path original_md5 w' = (Ok true, w'))).
Proof.
  intros H. eexists. split; [apply (checksum_matches_spec _ _ _ _ H)|]. split.
  - apply String.eqb_eq.
  - intros w' content' H' Hb.
    rewrite (checksum_matches_spec _ _ _ _ H'). apply String.eqb_eq in Hb.
    split; intros Hd; f_equal; f_equal.
    + apply String.eqb_neq. congruence.
    + apply String.eqb_eq. congruence.
Qed.

(** The theorem at the file [abc] and its digest. *)
Lemma verifier_compares_exactly_witness :
  ∃ b : bool,
    checksum_matches "d/fastqs/f" "900150983cd24fb0d6963f7d28e17f72"
      (World {[ "d/fastqs/f" := ["a"; "b"; "c"]%byte ]} [] [] [] [])
    = (Ok b, World {[ "d/fastqs/f" := ["a"; "b"; "c"]%byte ]} [] [] [] [])
    ∧ b = true.
Proof.
  destruct (verifier_compares_exactly
              (World {[ "d/fastqs/f" := ["a"; "b"; "c"]%byte ]} [] [] [] [])
              "d/fastqs/f" "900150983cd24fb0d6963f7d28e17f72" ["a"; "b"; "c"]%byte)
    as (b & Hrun & Hb & _).
  - vm_compute. reflexivity.
  - exists b. split; [exact Hrun|]. apply Hb. vm_compute. reflexivity.
Defined.

(** C2 as stated fails twice.  The digest of the empty file written in
    capitals equals the recomputed digest when case is ignored, and is
    refused.  And a file that is accepted is still accepted after one of
    its bytes is changed: the two files differ in the byte at index 21
    and in nothing else, and have the same MD5 digest. *)
Lemma verifier_case_and_mutation_counterexample :
  (let w := World {[ "d/fastqs/f" := [] ]} [] [] [] [] in
   let expected := "D41D8CD98F00B204E9800998ECF8427E" in
   Py.lower expected = Py.lower (MD5.hexdigest (MD5.update MD5.new []))
   ∧ fst (checksum_matches "d/fastqs/f" expected w) = Ok false)
  ∧ (let expected := "faad49866e9498fc1719f5289e7a0269" in
     let w := World {[ "d/fastqs/f" := collision_first ]} [] [] [] [] in
     let w' := World {[ "d/fastqs/f" := collision_second ]} [] [] [] [] in
     collision_first !! 21%nat = Some "A"%byte
     ∧ collision_second = <[21%nat := "E"%byte]> collision_first
     ∧ fst (checksum_matches "d/fastqs/f" expected w) = Ok true
     ∧ fst (checksum_matches "d/fastqs/f" expected w') = Ok true).
Proof. evaluated. Qed.

(** ** Target paths *)

Section TargetPaths.

Lemma target_path_eq destination url0 :
  ∃ base, last (Py.split url0 "/") = Some base
          ∧ target_path destination url0 = Ok (destination +:+ "/fastqs/" +:+ base).
Proof.
  unfold target_path, Py.last_item.
  destruct (last (Py.split url0 "/")) as [base|] eqn:L.
  - exists base. split; reflexivity.
  - apply last_None in L. exfalso. exact (split_nonempty _ _ L).
Qed.

Lemma append_cancel_l (s t p : string) : p +:+ s = p +:+ t → s = t.
Proof. induction p as [|c p IH]; rewrite ?append_nil, ?append_cons; [auto|]. intros H. injection H as H. auto. Qed.

End TargetPaths.

(** C9, as the code has it.  The target path of an entry is made of the
    destination and the last path segment of the entry's first candidate
    URL; the id is not used.  So two entries that have a candidate compute
    the same target path exactly when their first candidates end in the
    same segment, and the same partial path exactly when they compute the
    same target path. *)
Theorem target_paths_follow_urls (destination : string) (mf mf' : mfile)
    (url0 url0' : string) (rest rest' : list string) :
  get_prioritized_endpoint (urls mf) "" = Ok (url0 :: rest) →
  get_prioritized_endpoint (urls mf') "" = Ok (url0' :: rest') →
  ∃ f f' : string,
    entry_target destination mf = Ok (Some f)
    ∧ entry_target destination mf' = Ok (Some f')
    ∧ (f = f' ↔ last (Py.split url0 "/") = last (Py.split url0' "/"))
    ∧ (partial_path f = partial_path f' ↔ f = f').
Proof.
  intros H H'.
  destruct (target_path_eq destination url0) as (b & Lb & Tb).
  destruct (target_path_eq destination url0') as (b' & Lb' & Tb').
  exists (destination +:+ "/fastqs/" +:+ b), (destination +:+ "/fastqs/" +:+ b').
  unfold entry_target. rewrite H, H'. simpl. rewrite Tb, Tb'. simpl.
  repeat split.
  - intros E. rewrite Lb, Lb'. f_equal.
    apply append_cancel_l in E. apply append_cancel_l in E. exact E.
  - rewrite Lb, Lb'. intros E. injection E as ->. reflexivity.
  - unfold partial_path. apply append_cancel_r.
  - intros ->. reflexivity.
Qed.

(** The theorem at two entries with different ids and the same file name. *)
Lemma target_paths_follow_urls_witness :
  ∃ f f' : string,
    entry_target "d" (MFile "id1" "" "" "s1" "http://a/x.tar") = Ok (Some f)
    ∧ entry_target "d" (MFile "id2" "" "" "s2" "http://b/x.tar") = Ok (Some f')
    ∧ f = f'.
Proof.
  destruct (target_paths_follow_urls "d"
              (MFile "id1" "" "" "s1" "http://a/x.tar")
              (MFile "id2" "" "" "s2" "http://b/x.tar")
              "http://a/x.tar" "http://b/x.tar" [] [])
    as (f & f' & T & T' & E & _).
  - vm_compute. reflexivity.
  - vm_compute. reflexivity.
  - exists f, f'. repeat split; [exact T | exact T' |].
    apply E. vm_compute. reflexivity.
Defined.

(** C9 as stated fails: the ids of these two entries differ and their
    target paths, hence their partial paths, are the same. *)
Lemma target_path_counterexample :
  let mf1 := MFile "id1" "" "" "s1" "http://a/x.tar" in
  let mf2 := MFile "id2" "" "" "s2" "http://b/x.tar" in
  id mf1 ≠ id mf2
  ∧ entry_target "d" mf1 = Ok (Some "d/fastqs/x.tar")
  ∧ entry_target "d" mf2 = Ok (Some "d/fastqs/x.tar")
  ∧ partial_path "d/fastqs/x.tar" = "d/fastqs/x.tar.partial".
Proof.
  cbv zeta. split; [discriminate|]. evaluated.
Qed.

(** ** The sample grouper *)

Section Grouper.

Lemma latest_cons o x l : latest o (x :: l) = latest (Some x) l.
Proof.
  unfold latest. rewrite last_cons. destruct (last l); reflexivity.
Qed.

Lemma names_of_cons r m group :
  names_of r (m :: group)
  = if has_role r (name m) then name m :: names_of r group else names_of r group.
Proof. reflexivity. Qed.

(** What the first loop over a group leaves in the locals. *)
Lemma note_members_spec group l :
  fold_left note_member group l
  = Locals (latest (r1 l) (names_of R1 group))
           (latest (r2 l) (names_of R2 group))
           (latest (i1 l) (names_of I1 group))
           (latest (name_var l) (map name group)).
Proof.
  revert l; induction group as [|m group IH]; intros l.
  - destruct l; reflexivity.
  - cbn [fold_left]. rewrite IH. rewrite !names_of_cons.
    cbn [map]. rewrite (latest_cons (name_var l)).
    unfold note_member, has_role, role_of.
    destruct (Py.endswith (name m) ".fastq.gz");
      [destruct (Py.contains "_R1_" (name m));
       [|destruct (Py.contains "_R2_" (name m));
         [|destruct (Py.contains "_I1_" (name m))]]|];
      cbn [r1 r2 i1 name_var]; rewrite ?latest_cons; reflexivity.
Qed.

Lemma rebind_names_spec group l :
  fold_left rebind_name group l
  = Locals (r1 l) (r2 l) (i1 l) (latest (name_var l) (map name group)).
Proof.
  revert l; induction group as [|m group IH]; intros l.
  - destruct l; reflexivity.
  - cbn [fold_left]. rewrite IH. cbn [map]. rewrite latest_cons. reflexivity.
Qed.

Lemma latest_none l : latest None l = last l.
Proof. unfold latest. destruct (last l); reflexivity. Qed.

Lemma latest_idem o l : latest (latest o l) l = latest o l.
Proof. unfold latest. destruct (last l); reflexivity. Qed.

Lemma last_nonempty (l : list string) : l ≠ [] → ∃ x, last l = Some x.
Proof.
  intros H. destruct (last l) eqn:L; [eauto|].
  apply last_None in L. contradiction.
Qed.

Lemma last_in_names r group a :
  last (names_of r group) = Some a → has_role r a = true.
Proof.
  intros L. apply last_Some_elem_of, list_elem_of_In in L.
  apply filter_In in L. tauto.
Qed.

(** The sample identifier: what stands before the first [_R1_]. *)
Lemma sample_of_r1 a :
  has_role R1 a = true →
  ∃ sample rest,
    head (Py.split a "_R1_") = Some sample
    ∧ a = sample +:+ "_R1_" +:+ rest
    ∧ ∀ s' t', a = s' +:+ "_R1_" +:+ t' → (String.length sample ≤ String.length s')%nat.
Proof.
  unfold has_role, role_of. intros H.
  destruct (Py.endswith a ".fastq.gz"); [|discriminate].
  destruct (Py.contains "_R1_" a) eqn:C.
  - destruct (contains_cut _ _ C) as (sample & rest & Hcut).
    exists sample, rest. split; [|split].
    + apply (split_head_cut _ _ _ _ Hcut). intros ->. discriminate.
    + apply cut_Some, Hcut.
    + apply (cut_first _ _ _ _ Hcut).
  - destruct (Py.contains "_R2_" a); [discriminate|].
    destruct (Py.contains "_I1_" a); discriminate.
Qed.

(** A group with the three roles: the line that is written. *)
Lemma group_step_complete group nv out a b c :
  last (names_of R1 group) = Some a →
  last (names_of R2 group) = Some b →
  last (names_of I1 group) = Some c →
  ∃ l' sample rest,
    group_step group (Locals None None None nv, out)
    = Ok (l', Output (sample_lines out ++ [Py.join Py.tab [sample; a; b; c] +:+ Py.nl])
                (reports out))
    ∧ a = sample +:+ "_R1_" +:+ rest
    ∧ ∀ s' t', a = s' +:+ "_R1_" +:+ t' → (String.length sample ≤ String.length s')%nat.
Proof.
  intros La Lb Lc.
  destruct (sample_of_r1 a (last_in_names _ _ _ La)) as (sample & rest & Hs & Ha & Hmin).
  unfold group_step. rewrite note_members_spec. cbn [r1 r2 i1 name_var].
  rewrite !latest_none, La, Lb, Lc. rewrite Hs. simpl.
  eexists _, sample, rest. repeat split; assumption.
Qed.

(** A group that lacks a role: nothing is written to the descriptor, and
    the report holds the name assigned last. *)
Lemma group_step_incomplete group nv out :
  names_of R1 group = [] ∨ names_of R2 group = [] ∨ names_of I1 group = [] →
  group_step group (Locals None None None nv, out)
  = match latest nv (map name group) with
    | Some nm =>
        Ok (Locals (last (names_of R1 group)) (last (names_of R2 group))
              (last (names_of I1 group)) (Some nm),
            Output (sample_lines out) (reports out ++ [not_one_each; nm +:+ Py.nl]))
    | None => Raise UnboundLocalError
    end.
Proof.
  intros H. unfold group_step. rewrite note_members_spec. cbn [r1 r2 i1 name_var].
  rewrite !latest_none.
  assert (E : ∀ A (k : A) (f : string → string → string → A),
            match last (names_of R1 group), last (names_of R2 group),
                  last (names_of I1 group) with
            | Some a, Some b, Some c => f a b c
            | _, _, _ => k
            end = k).
  { intros A k f. destruct H as [-> | [-> | ->]]; simpl.
    - reflexivity.
    - destruct (last (names_of R1 group)); reflexivity.
    - destruct (last (names_of R1 group)); [|reflexivity].
      destruct (last (names_of R2 group)); reflexivity. }
  rewrite E. rewrite rebind_names_spec. cbn [r1 r2 i1 name_var].
  rewrite latest_idem.
  destruct (latest nv (map name group)) as [nm|]; simpl; [|reflexivity].
  reflexivity.
Qed.

End Grouper.

(** C5, as the code has it.  For the first group of an element of
    [file_groups] (the role locals are unset), a line is written to the
    descriptor exactly when the group has at least one member name of each
    of the three roles.  The line then holds, after the sample identifier,
    the last name of each role, and the identifier is what stands before
    the first [_R1_] of the R1 name. *)
Theorem grouper_emits_on_three_roles (group : list member) (nv : option string)
    (out : output) :
  ((∃ l' line,
      group_step group (Locals None None None nv, out)
      = Ok (l', Output (sample_lines out ++ [line]) (reports out)))
   ↔ names_of R1 group ≠ [] ∧ names_of R2 group ≠ [] ∧ names_of I1 group ≠ [])
  ∧ (∀ a b c : string,
       last (names_of R1 group) = Some a →
       last (names_of R2 group) = Some b →
       last (names_of I1 group) = Some c →
       ∃ l' sample rest,
         group_step group (Locals None None None nv, out)
         = Ok (l', Output (sample_lines out ++ [Py.join Py.tab [sample; a; b; c] +:+ Py.nl])
                     (reports out))
         ∧ a = sample +:+ "_R1_" +:+ rest
         ∧ ∀ s' t', a = s' +:+ "_R1_" +:+ t' →
                    (String.length sample ≤ String.length s')%nat).
Proof.
  split; [split|].
  - intros (l' & line & Hstep).
    destruct (names_of R1 group) as [|x1 n1] eqn:N1;
      [|destruct (names_of R2 group) as [|x2 n2] eqn:N2;
        [|destruct (names_of I1 group) as [|x3 n3] eqn:N3]];
      try (repeat split; discriminate);
      exfalso;
      rewrite group_step_incomplete in Hstep by (rewrite ?N1, ?N2, ?N3; tauto);
      (destruct (latest nv (map name group)); [|discriminate]);
      injection Hstep as _ Hlines _;
      apply (f_equal (@length string)) in Hlines;
      rewrite length_app in Hlines; simpl in Hlines; lia.
  - intros (H1 & H2 & H3).
    destruct (last_nonempty _ H1) as [a La].
    destruct (last_nonempty _ H2) as [b Lb].
    destruct (last_nonempty _ H3) as [c Lc].
    destruct (group_step_complete group nv out a b c La Lb Lc)
      as (l' & sample & rest & Hstep & _).
    eauto.
  - intros a b c. apply group_step_complete.
Qed.

(** The theorem at a group of the three files of one sample. *)
Lemma grouper_emits_on_three_roles_witness :
  ∃ l' sample rest,
    group_step [Member "s_R1_001.fastq.gz" []; Member "s_R2_001.fastq.gz" [];
                Member "s_I1_001.fastq.gz" []]
               (Locals None None None None, Output [] [])
    = Ok (l', Output ([] ++ [Py.join Py.tab [sample; "s_R1_001.fastq.gz"; "s_R2_001.fastq.gz";
                                              "s_I1_001.fastq.gz"] +:+ Py.nl]) [])
    ∧ "s_R1_001.fastq.gz" = sample +:+ "_R1_" +:+ rest.
Proof.
  destruct (proj2 (grouper_emits_on_three_roles
                     [Member "s_R1_001.fastq.gz" []; Member "s_R2_001.fastq.gz" [];
                      Member "s_I1_001.fastq.gz" []] None (Output [] []))
              "s_R1_001.fastq.gz" "s_R2_001.fastq.gz" "s_I1_001.fastq.gz")
    as (l' & sample & rest & Hstep & Ha & _).
  - vm_compute. reflexivity.
  - vm_compute. reflexivity.
  - vm_compute. reflexivity.
  - exists l', sample, rest. split; [exact Hstep | exact Ha].
Defined.

(** C5 as stated fails: this group has two R1 names, so it has not
    exactly one name of each role, and a record is emitted for it, made
    with the second R1 name. *)
Lemma grouper_duplicate_counterexample :
  let group := [Member "a_R1_1.fastq.gz" []; Member "b_R1_1.fastq.gz" [];
                Member "a_R2_1.fastq.gz" []; Member "a_I1_1.fastq.gz" []] in
  length (names_of R1 group) = 2%nat
  ∧ snd <$> (match group_step group (Locals None None None None, Output [] []) with
             | Ok st => Some st
             | Raise _ => None
             end)
    = Some (Output [Py.join Py.tab ["b"; "b_R1_1.fastq.gz"; "a_R2_1.fastq.gz";
                                    "a_I1_1.fastq.gz"] +:+ Py.nl] []).
Proof. evaluated. Qed.

(** C6, on the code: a first group that lacks a role is kept out of the
    descriptor, and the report written for it holds, after the heading,
    the name of its last member and no other name. *)
Theorem grouper_reports_last_member_only (group : list member) (nv : option string)
    (out : output) (nm : string) :
  names_of R1 group = [] ∨ names_of R2 group = [] ∨ names_of I1 group = [] →
  last (map name group) = Some nm →
  ∃ l',
    group_step group (Locals None None None nv, out)
    = Ok (l', Output (sample_lines out) (reports out ++ [not_one_each; nm +:+ Py.nl])).
Proof.
  intros H L. rewrite group_step_incomplete by exact H.
  unfold latest. rewrite L. eauto.
Qed.

(** The theorem at a group of two files that lacks the I1 file: the
    report names the second file and not the first. *)
Lemma grouper_reports_last_member_only_witness :
  ∃ l',
    group_step [Member "s_R1_001.fastq.gz" []; Member "s_R2_001.fastq.gz" []]
               (Locals None None None None, Output [] [])
    = Ok (l', Output [] ([] ++ [not_one_each; "s_R2_001.fastq.gz" +:+ Py.nl])).
Proof.
  apply (grouper_reports_last_member_only
           [Member "s_R1_001.fastq.gz" []; Member "s_R2_001.fastq.gz" []]
           None (Output [] []) "s_R2_001.fastq.gz").
  - right. right. vm_compute. reflexivity.
  - vm_compute. reflexivity.
Defined.

(** ** The file system *)

Section FileSystem.

Implicit Types w : world.

Lemma set_fs_fs f w : fs (set_fs f w) = f (fs w).
Proof. reflexivity. Qed.

Lemma elem_of_paths w p :
  p ∈ FS.paths w ↔ is_Some (fs w !! p) ∨ p ∈ dirs w.
Proof.
  unfold FS.paths. rewrite elem_of_app, list_elem_of_fmap. split.
  - intros [([k v] & -> & Hkv) | Hd]; [left | right; exact Hd].
    apply elem_of_map_to_list in Hkv. simpl. eauto.
  - intros [[v Hv] | Hd]; [left | right; exact Hd].
    exists (p, v). split; [reflexivity|]. apply elem_of_map_to_list. exact Hv.
Qed.

(** Directories and files are told apart by the names that are there,
    not by what the files hold. *)
Lemma entries_nil_same_names w w' d :
  dirs w = dirs w' →
  (∀ k, is_Some (fs w !! k) ↔ is_Some (fs w' !! k)) →
  FS.entries w d = [] → FS.entries w' d = [].
Proof.
  intros Hd Hk. unfold FS.entries. intros E.
  destruct (remove_dups (omap _ (FS.paths w'))) as [|e es] eqn:E'; [reflexivity|].
  exfalso.
  assert (He : e ∈ remove_dups (omap (Path.child (Path.norm d)) (FS.paths w')))
    by (rewrite E'; left).
  apply elem_of_remove_dups, list_elem_of_omap in He as (p & Hp & Hc).
  assert (Hp' : p ∈ FS.paths w).
  { apply elem_of_paths. apply elem_of_paths in Hp. rewrite Hk, Hd. exact Hp. }
  assert (He : e ∈ remove_dups (omap (Path.child (Path.norm d)) (FS.paths w))).
  { apply elem_of_remove_dups, list_elem_of_omap. eauto. }
  rewrite E in He. inversion He.
Qed.

Lemma is_dir_same_names w w' p :
  dirs w = dirs w' →
  (∀ k, is_Some (fs w !! k) ↔ is_Some (fs w' !! k)) →
  FS.is_dir w' p = FS.is_dir w p.
Proof.
  intros Hd Hk. unfold FS.is_dir, FS.is_file. rewrite Hd.
  f_equal. f_equal.
  - f_equal. apply bool_decide_ext. symmetry. apply Hk.
  - apply bool_decide_ext. split; intros H E; apply H.
    + apply (entries_nil_same_names w w'); assumption.
    + apply (entries_nil_same_names w' w); [congruence | | assumption].
      intros k. symmetry. apply Hk.
Qed.

Lemma is_Some_insert_present (m : gmap string bytes) k v v' k' :
  m !! k = Some v → is_Some (m !! k') ↔ is_Some (<[k := v']> m !! k').
Proof.
  intros H. destruct (decide (k = k')) as [<-|Hne].
  - rewrite lookup_insert_eq, H. split; eauto.
  - rewrite lookup_insert_ne by exact Hne. reflexivity.
Qed.

(** Writing to a file that is there makes no directory and removes none. *)
Lemma is_dir_rewrite w k v v' p :
  fs w !! k = Some v →
  FS.is_dir (set_fs (insert k v') w) p = FS.is_dir w p.
Proof.
  intros H. apply is_dir_same_names; [reflexivity|].
  intros k'. rewrite set_fs_fs. apply (is_Some_insert_present _ _ _ _ _ H).
Qed.

End FileSystem.

(** ** The downloader *)

Section Download.

Implicit Types w : world.

Lemma read_spec bs (res : bytes) :
  bs ≠ 0 →
  ∃ b r, read bs res = (b, r) ∧ b ++ r = res ∧ (b = [] → res = []).
Proof.
  intros Hbs. unfold read. destruct (bs <? 0) eqn:Hneg.
  - exists res, []. rewrite app_nil_r. auto.
  - exists (firstn (Z.to_nat bs) res), (skipn (Z.to_nat bs) res).
    split; [reflexivity|]. split; [apply firstn_skipn|].
    apply Z.ltb_ge in Hneg.
    destruct (Z.to_nat bs) as [|n] eqn:Hn; [lia|].
    destruct res; [reflexivity | discriminate].
Qed.

Lemma set_fs_insert_id w k v : fs w !! k = Some v → set_fs (insert k v) w = w.
Proof.
  intros H. destruct w as [f d s r e]. unfold set_fs. simpl in *.
  rewrite (insert_id _ _ _ H). reflexivity.
Qed.

Lemma set_fs_insert_twice w k v v' :
  set_fs (insert k v') (set_fs (insert k v) w) = set_fs (insert k v') w.
Proof. unfold set_fs. simpl. rewrite insert_insert_eq. reflexivity. Qed.

(** The transfer loop appends the whole response to the partial file and
    advances the cursor by its length; the fuel is not used up. *)
Lemma transfer_spec fuel : ∀ (res : bytes) endpoint bs cb fsz file w (p : bytes),
  bs ≠ 0 → (res ≠ [] → fsz ≠ 0) → (length res < fuel)%nat →
  fs w !! Path.norm file = Some p →
  transfer fuel res endpoint bs cb fsz file w
  = (Ok (cb + Z.of_nat (length res)), set_fs (insert (Path.norm file) (p ++ res)) w).
Proof.
  induction fuel as [|fuel IH]; intros res endpoint bs cb fsz file w p Hbs Hsz Hlen Hp; [lia|].
  cbn [transfer]. unfold get_buffer.
  destruct (read_spec bs res Hbs) as (b & r & -> & Happ & Hnil).
  destruct b as [|x b].
  - rewrite (Hnil eq_refl). rewrite app_nil_r, (set_fs_insert_id _ _ _ Hp).
    unfold ret. do 2 f_equal. simpl. lia.
  - assert (Hres : res ≠ []) by (rewrite <- Happ; discriminate).
    enter FS.append. rewrite Hp.
    destruct (fsz =? 0) eqn:Hz; [apply Z.eqb_eq in Hz; specialize (Hsz Hres); lia|].
    rewrite (IH r endpoint bs _ fsz file _ (p ++ x :: b)).
    + rewrite set_fs_insert_twice. rewrite <- Happ, <- app_assoc.
      do 2 f_equal. rewrite length_app. lia.
    + exact Hbs.
    + intros _. lia.
    + rewrite <- Happ, length_app in Hlen. simpl in Hlen. lia.
    + rewrite set_fs_fs. apply lookup_insert_eq.
Qed.

Lemma connect_first E url rest hdr eps w content :
  remote E url = Some content →
  ∃ endpoint eps',
    connect E (url :: rest) hdr eps w
    = (Ok (Some (content, url, endpoint), eps'),
       World (fs w) (dirs w) (sent w ++ [Request url []]) (ran w) (stderr w)).
Proof.
  intros Hr. cbn [connect].
  destruct (Py.split url ":") as [|s0 l] eqn:S; [exfalso; exact (split_nonempty _ _ S)|].
  enter lift. cbn [head of_index].
  unfold try_except at 1. unfold bind at 1.
  unfold get_url_obj, try_except, Net.urlopen. cbn [req_url req_headers].
  rewrite Hr. unfold Net.serve. cbn [Net.header List.find fmap option_fmap option_map].
  unfold ret. eauto.
Qed.

Lemma download_resumed E w url rest file_name bs (content p : bytes) :
  remote E url = Some content →
  fs w !! Path.norm (partial_path file_name) = Some p →
  Path.norm (partial_path file_name) ∉ dirs w →
  FS.is_dir w file_name = false →
  bs ≠ 0 →
  ∃ w',
    download E (url :: rest) file_name bs w
    = (Ok (Some (Z.of_nat (length p) + Z.of_nat (length content),
                 Z.of_nat (length content))), w')
    ∧ fs w' !! Path.norm file_name = Some (p ++ content)
    ∧ sent w' = sent w ++ [Request url []; Request url []].
Proof.
  intros Hr Hp Hnd Hdir Hbs.
  set (tmp := partial_path file_name) in *.
  assert (Hfile : FS.is_file w tmp = true).
  { unfold FS.is_file. apply bool_decide_eq_true. eauto. }
  assert (Htd : FS.is_dir w tmp = false).
  { unfold FS.is_dir. rewrite Hfile. rewrite bool_decide_eq_false_2 by exact Hnd. reflexivity. }
  destruct (connect_first E url rest [("Range", "bytes=" +:+ pretty (Z.of_nat (length p)) +:+ "-")] [] w content Hr)
    as (endpoint & eps' & Hc).
  unfold download. fold tmp.
  enter FS.exists_. rewrite Hfile. cbn [orb].
  enter FS.getsize. rewrite Hp.
  unfold bind at 1. rewrite Hc. cbn [fst].
  enter FS.open_append.
  set (w1 := World (fs w) (dirs w) (sent w ++ [Request url []]) (ran w) (stderr w)).
  change (FS.is_dir w1 tmp) with (FS.is_dir w tmp). rewrite Htd.
  change (fs w1) with (fs w). rewrite Hp.
  unfold bind at 1. unfold get_file_size, Net.content_length. rewrite Hr.
  set (w2 := World (fs w1) (dirs w1) (sent w1 ++ [Request url []]) (ran w1) (stderr w1)).
  unfold bind at 1.
  rewrite (transfer_spec _ _ _ _ _ _ _ w2 p); [|exact Hbs| |lia|exact Hp].
  2:{ intros Hne. destruct content; [congruence | simpl; lia]. }
  enter FS.move. rewrite set_fs_fs, lookup_insert_eq.
  rewrite (is_dir_rewrite w2 _ p) by exact Hp.
  change (FS.is_dir w2 file_name) with (FS.is_dir w file_name). rewrite Hdir.
  unfold ret. eexists. split; [reflexivity|]. split.
  - rewrite set_fs_fs. apply lookup_insert_eq.
  - simpl. rewrite <- app_assoc. reflexivity.
Qed.
End Download.

(** C1, on the code.  A partial file [p] is there, the target is not, and
    the first candidate serves [content].  The two requests that go out,
    from [get_url_obj] and from [get_file_size], carry no header, so no
    range is asked for; the whole content is appended to the partial
    file, and the target ends up as [p] followed by the whole content,
    which is not the content when [p] is not empty. *)
Theorem resume_requests_whole_content (E : env) (w : world) (url : string)
    (rest : list string) (file_name : string) (block_size : Z) (content p : bytes) :
  remote E url = Some content →
  fs w !! Path.norm (partial_path file_name) = Some p →
  Path.norm (partial_path file_name) ∉ dirs w →
  FS.is_dir w file_name = false →
  block_size ≠ 0 →
  ∃ (w' : world) (states : option (Z * Z)),
    download E (url :: rest) file_name block_size w = (Ok states, w')
    ∧ sent w' = sent w ++ [Request url []; Request url []]
    ∧ fs w' !! Path.norm file_name = Some (p ++ content)
    ∧ (p ≠ [] → p ++ content ≠ content).
Proof.
  intros Hr Hp Hnd Hdir Hbs.
  destruct (download_resumed E w url rest file_name block_size content p Hr Hp Hnd Hdir Hbs)
    as (w' & Hrun & Hfile & Hsent).
  exists w'. eexists. split; [exact Hrun|]. split; [exact Hsent|]. split; [exact Hfile|].
  intros Hne Heq. apply (f_equal (@length byte)) in Heq.
  rewrite length_app in Heq. destruct p; [congruence | simpl in Heq; lia].
Qed.

(** The theorem where the first byte of the archive is already there:
    the target ends up with that byte twice. *)
Lemma resume_requests_whole_content_witness :
  ∃ (w' : world) (states : option (Z * Z)),
    download (sample_env None 0) ["http://h/a.tar"] "d/fastqs/a.tar" 1000000
      (staging [("d/fastqs/a.tar.partial", ["A"]%byte)]) = (Ok states, w')
    ∧ sent w' = [] ++ [Request "http://h/a.tar" []; Request "http://h/a.tar" []]
    ∧ fs w' !! Path.norm "d/fastqs/a.tar" = Some (["A"] ++ ["A"; "B"])%byte
    ∧ ["A"]%byte ++ ["A"; "B"]%byte ≠ ["A"; "B"]%byte.
Proof.
  destruct (resume_requests_whole_content (sample_env None 0)
              (staging [("d/fastqs/a.tar.partial", ["A"]%byte)])
              "http://h/a.tar" [] "d/fastqs/a.tar" 1000000 ["A"; "B"]%byte ["A"]%byte)
    as (w' & states & Hrun & Hsent & Hfile & Hne).
  - reflexivity.
  - vm_compute. reflexivity.
  - apply (bool_decide_unpack _). vm_compute. exact I.
  - vm_compute. reflexivity.
  - lia.
  - exists w', states. repeat split; [exact Hrun | exact Hsent | exact Hfile |].
    apply Hne. discriminate.
Defined.

(** C3, on the code.  In the same setting the cursor starts at the size of
    the partial file and the loop adds the size of the whole content, while
    [file_size] is the size of the content: when the partial file is not
    empty the cursor ends above the total. *)
Theorem resume_cursor_exceeds_total (E : env) (w : world) (url : string)
    (rest : list string) (file_name : string) (block_size : Z) (content p : bytes) :
  remote E url = Some content →
  fs w !! Path.norm (partial_path file_name) = Some p →
  Path.norm (partial_path file_name) ∉ dirs w →
  FS.is_dir w file_name = false →
  block_size ≠ 0 →
  p ≠ [] →
  ∃ (w' : world) (current_byte file_size : Z),
    download E (url :: rest) file_name block_size w
    = (Ok (Some (current_byte, file_size)), w')
    ∧ file_size = Z.of_nat (length content)
    ∧ current_byte = Z.of_nat (length p) + Z.of_nat (length content)
    ∧ file_size < current_byte.
Proof.
  intros Hr Hp Hnd Hdir Hbs Hne.
  destruct (download_resumed E w url rest file_name block_size content p Hr Hp Hnd Hdir Hbs)
    as (w' & Hrun & _).
  exists w'. eexists _, _. split; [exact Hrun|]. repeat split.
  destruct p; [congruence | simpl; lia].
Qed.

(** The theorem where one byte of two is already there: the cursor ends
    at 3 for a total of 2. *)
Lemma resume_cursor_exceeds_total_witness :
  ∃ w' : world,
    download (sample_env None 0) ["http://h/a.tar"] "d/fastqs/a.tar" 1000000
      (staging [("d/fastqs/a.tar.partial", ["A"]%byte)])
    = (Ok (Some (3, 2)), w').
Proof.
  destruct (resume_cursor_exceeds_total (sample_env None 0)
              (staging [("d/fastqs/a.tar.partial", ["A"]%byte)])
              "http://h/a.tar" [] "d/fastqs/a.tar" 1000000 ["A"; "B"]%byte ["A"]%byte)
    as (w' & current_byte & file_size & Hrun & -> & -> & _).
  - reflexivity.
  - vm_compute. reflexivity.
  - apply (bool_decide_unpack _). vm_compute. exact I.
  - vm_compute. reflexivity.
  - lia.
  - discriminate.
  - exists w'. exact Hrun.
Defined.

(** ** The archive extractor *)

Section Extractor.

Implicit Types w : world.

Lemma put_stderr p data w :
  stderr (snd (FS.put p data w)) = stderr w.
Proof. unfold FS.put. destruct (FS.is_dir w p); reflexivity. Qed.

Lemma write_members_stderr tardir (ms : list member) w :
  stderr (snd (for_each ms
                 (λ (m : member) (_ : unit), FS.put (Path.join tardir (name m)) (payload m))
                 tt w))
  = stderr w.
Proof.
  revert w; induction ms as [|m ms IH]; intros w; [reflexivity|].
  cbn [for_each]. unfold bind.
  pose proof (put_stderr (Path.join tardir (name m)) (payload m) w) as Hput.
  destruct (FS.put _ _ w) as [[[]|e] w1]; simpl in Hput |- *.
  - rewrite IH. exact Hput.
  - exact Hput.
Qed.

(** Once the members are listed, [untar_file] returns them, whatever
    becomes of the extraction. *)
Lemma untar_file_returns E path w data ms :
  fs w !! Path.norm path = Some data →
  tar_members E data = Some ms →
  fst (untar_file E path w) = Ok ms.
Proof.
  intros Hd Hm. unfold untar_file.
  enter try_except. unfold bind at 1.
  unfold tarfile_open at 1. enter FS.read_file.
  rewrite Hd, Hm. unfold ret at 1. enter try_except.
  destruct (bind (extractall E (data, ms) (Path.dirname path)) _ w) as [[[]|e] w1];
    cbn [snd]; reflexivity.
Qed.

End Extractor.

(** C7, on the code.  When the members of an archive can be listed and
    [extractall] then fails, [untar_file] does not raise: it writes one
    line to [sys.stderr] and returns the full list of members, as it does
    after an extraction without error. *)
Theorem extraction_error_not_raised (E : env) (w : world) (path : string)
    (data : bytes) (ms : list member) (n : nat) :
  fs w !! Path.norm path = Some data →
  tar_members E data = Some ms →
  extract_fault E data = Some n →
  ∃ w' : world,
    untar_file E path w = (Ok ms, w')
    ∧ stderr w' = stderr w ++ ["Problem untarring file " +:+ path +:+ Py.nl].
Proof.
  intros Hd Hm Hf.
  pose proof (untar_file_returns E path w data ms Hd Hm) as Hret.
  destruct (untar_file E path w) as [r w'] eqn:Hrun. simpl in Hret. subst r.
  exists w'. split; [reflexivity|].
  revert Hrun. unfold untar_file.
  enter try_except. unfold bind at 1.
  unfold tarfile_open at 1. enter FS.read_file.
  rewrite Hd, Hm. unfold ret at 1. enter try_except.
  unfold bind at 1. unfold extractall. rewrite Hf. unfold bind at 1.
  pose proof (write_members_stderr (Path.dirname path) (firstn n ms) w) as Hst.
  destruct (for_each (firstn n ms) _ tt w) as [[[]|e] w1]; simpl in Hst;
    unfold raise, write_stderr, ret; cbn [snd];
    intros Hrun; injection Hrun as <-; cbn [stderr]; rewrite Hst; reflexivity.
Qed.

(** The theorem at an archive of three members whose extraction stops
    after the first. *)
Lemma extraction_error_not_raised_witness :
  ∃ w' : world,
    untar_file (sample_env (Some 1%nat) 0) "d/fastqs/a.tar"
      (staging [("d/fastqs/a.tar", ["A"; "B"]%byte)])
    = (Ok sample_members, w')
    ∧ stderr w' = [] ++ ["Problem untarring file " +:+ "d/fastqs/a.tar" +:+ Py.nl].
Proof.
  apply (extraction_error_not_raised (sample_env (Some 1%nat) 0)
           (staging [("d/fastqs/a.tar", ["A"; "B"]%byte)])
           "d/fastqs/a.tar" ["A"; "B"]%byte sample_members 1%nat).
  - vm_compute. reflexivity.
  - reflexivity.
  - reflexivity.
Defined.

(** What follows in [download_manifest] for that archive, here with the
    verification off: the entry goes on as after a good extraction.  The
    members are added to [file_groups], [gsutil] is run on the run
    directory, and nothing is counted as failed. *)
Lemma swallowed_error_reaches_upload :
  let outcome := manifest_entry (sample_env (Some 1%nat) 0) "d" "b" true 1000000
               sample_entry ([], []) (staging []) in
  fst outcome = Ok ([], [[sample_members]])
  ∧ ran (snd outcome) = [["gsutil"; "cp"; "-r"; "d"; "gs://b"]]
  ∧ stderr (snd outcome) = ["Problem untarring file d/fastqs/a.tar" +:+ Py.nl].
Proof. evaluated. Qed.

(** When the members cannot be listed the failure does reach
    [download_manifest], as an [UnboundLocalError], and the staging
    directory is cleared, the archive included. *)
Lemma unreadable_archive_is_cleared :
  let E := Env (λ _, Some ["A"; "B"]%byte) (λ _, None) (λ _, None) (λ _, (0, "", "")) in
  let outcome := manifest_entry E "d" "b" true 1000000 sample_entry ([], []) (staging []) in
  fst outcome = Ok ([], [])
  ∧ FS.entries (snd outcome) "d/fastqs" = []
  ∧ ran (snd outcome) = [].
Proof. evaluated. Qed.

(** ** The orchestrator *)

Section Orchestrator.

Implicit Types w : world.

Lemma entries_same_names w w' d :
  fs w' = fs w → dirs w' = dirs w → FS.entries w' d = FS.entries w d.
Proof. intros Hf Hd. unfold FS.entries, FS.paths. rewrite Hf, Hd. reflexivity. Qed.

End Orchestrator.

(** C8, on the code.  When [gsutil] ends with a code other than 0, the
    upload stage of an entry writes the error and is over: the entry's
    state is returned as it is and the staging directory holds what it
    held, which is where the next entry starts. *)
Theorem upload_failure_keeps_staging (E : env) (w : world) (destination bucket : string)
    (st : list Z * list file_group) (exit_code : Z) (out err : string) :
  run_command E (gsutil_command destination bucket true) = (exit_code, out, err) →
  exit_code ≠ 0 →
  ∃ w' : world,
    upload_stage E destination bucket st w = (Ok st, w')
    ∧ fs w' = fs w
    ∧ FS.entries w' (Path.join destination "fastqs")
      = FS.entries w (Path.join destination "fastqs").
Proof.
  intros Hrun Hcode.
  unfold upload_stage. enter try_except. unfold bind at 1.
  unfold upload2bucket. enter executor_run. rewrite Hrun.
  destruct (exit_code =? 0) eqn:Hz; [apply Z.eqb_eq in Hz; contradiction|].
  enter write_stderr. unfold raise at 1.
  enter write_stderr. unfold ret.
  eexists. split; [reflexivity|]. split; [reflexivity|].
  apply entries_same_names; reflexivity.
Qed.

(** The theorem at a staging directory that holds the three extracted
    files of an entry, with a [gsutil] that ends with code 1. *)
Lemma upload_failure_keeps_staging_witness :
  ∃ w' : world,
    upload_stage (sample_env None 1) "d" "b" ([], [[sample_members]])
      (staging [("d/fastqs/s_R1_001.fastq.gz", ["1"]%byte);
                ("d/fastqs/s_R2_001.fastq.gz", ["2"]%byte);
                ("d/fastqs/s_I1_001.fastq.gz", ["3"]%byte)])
    = (Ok ([], [[sample_members]]), w')
    ∧ FS.entries w' (Path.join "d" "fastqs")
      = ["s_I1_001.fastq.gz"; "s_R1_001.fastq.gz"; "s_R2_001.fastq.gz"].
Proof.
  destruct (upload_failure_keeps_staging (sample_env None 1)
              (staging [("d/fastqs/s_R1_001.fastq.gz", ["1"]%byte);
                        ("d/fastqs/s_R2_001.fastq.gz", ["2"]%byte);
                        ("d/fastqs/s_I1_001.fastq.gz", ["3"]%byte)])
              "d" "b" ([], [[sample_members]]) 1 "" "AccessDenied")
    as (w' & Hrun & _ & Hentries).
  - reflexivity.
  - lia.
  - exists w'. split; [exact Hrun|]. rewrite Hentries. vm_compute. reflexivity.
Defined.

(** The whole of an entry, from the download on: with an upload that
    fails the three extracted files are still in the staging directory
    when the entry is done; with an upload that succeeds the directory is
    empty. *)
Lemma entry_with_failed_upload :
  let failed := manifest_entry (sample_env None 1) "d" "b" true 1000000
                  sample_entry ([], []) (staging []) in
  let good := manifest_entry (sample_env None 0) "d" "b" true 1000000
                sample_entry ([], []) (staging []) in
  fst failed = Ok ([], [[sample_members]])
  ∧ FS.entries (snd failed) "d/fastqs"
    = ["s_I1_001.fastq.gz"; "s_R1_001.fastq.gz"; "s_R2_001.fastq.gz"]
  ∧ stderr (snd failed)
    = ["AccessDenied";
       "Error uploading the data to firecloud: Upload to GCP location b failed.."
       +:+ Py.nl]
  ∧ fst good = Ok ([], [[sample_members]])
  ∧ FS.entries (snd good) "d/fastqs" = [].
Proof. evaluated. Qed.

(** The state in which the second entry of a manifest starts is the one
    the first entry leaves: after a failed upload [download_manifest]
    goes on with the files of the first entry in place. *)
Lemma next_entry_starts_uncleared :
  let E := sample_env None 1 in
  let second := MFile "id2" "" "2" "s" "" in
  download_manifest E [sample_entry; second] "d" "b" true 1000000 (staging [])
  = (let* st := manifest_entry E "d" "b" true 1000000 second ([], [[sample_members]]) in
     ret (snd st))
      (snd (manifest_entry E "d" "b" true 1000000 sample_entry ([], []) (staging []))).
Proof. evaluated. Qed.

(* ===================================================================== *)
(** * Part III: further properties of the script                          *)
(* ===================================================================== *)

(** ** More on the endpoint selector *)

Section SelectorMore.

Lemma selector_default_spec manifest_urls :
  get_prioritized_endpoint manifest_urls ""
  = rmap patched (bucket "HTTP" (Py.split manifest_urls ",")
                  ++ bucket "S3" (Py.split manifest_urls ",")).
Proof.
  unfold get_prioritized_endpoint.
  change (priorities_in_force "") with (Ok (A := list string) ["HTTP"; "S3"]).
  cbn [rbind]. rewrite scan_eps_spec. cbn [flat_map]. rewrite app_nil_r.
  destruct (rmap patched _); reflexivity.
Qed.

Lemma in_default_buckets url urls :
  In url (bucket "HTTP" urls ++ bucket "S3" urls)
  ↔ In url urls ∧ (Py.startswith url "http" = true ∨ Py.startswith url "s3" = true).
Proof.
  rewrite in_app_iff. unfold bucket. rewrite !filter_In.
  change (Py.lower "HTTP") with "http". change (Py.lower "S3") with "s3". tauto.
Qed.

Lemma patched_raises url e : patched url = Raise e → e = IndexError.
Proof.
  unfold patched, demo_rewrite.
  destruct (_ && _); [|discriminate].
  destruct (Py.split url "/" !! 2%nat); simpl; [|congruence].
  destruct (Py.split url "/" !! 4%nat); simpl; congruence.
Qed.

Lemma rmap_raises {A B} (f : A → result B) (l : list A) x e :
  In x l → f x = Raise e → (∀ y e', f y = Raise e' → e' = e) → rmap f l = Raise e.
Proof.
  intros Hin Hx Hall. induction l as [|y l IH]; [destruct Hin|].
  simpl. destruct (f y) as [b|e'] eqn:Hy.
  - destruct Hin as [->|Hin]; [congruence|].
    simpl. rewrite (IH Hin). reflexivity.
  - simpl. f_equal. eapply Hall, Hy.
Qed.

Lemma rmap_Ok_in {A B} (f : A → result B) (l : list A) (k : list B) y :
  rmap f l = Ok k → In y k → ∃ x, In x l ∧ f x = Ok y.
Proof.
  revert k; induction l as [|x l IH]; intros k H Hy; simpl in H.
  - injection H as <-. destruct Hy.
  - destruct (f x) as [y0|] eqn:Hx; [|discriminate]. simpl in H.
    destruct (rmap f l) as [ys|]; [|discriminate]. simpl in H.
    injection H as <-. destruct Hy as [<-|Hy].
    + exists x. split; [left; reflexivity | exact Hx].
    + destruct (IH ys eq_refl Hy) as (x' & Hin & Hx'). exists x'. split; [right|]; assumption.
Qed.

Lemma patched_shape url u :
  patched url = Ok u → u = url ∨ Py.startswith u "s3" = true.
Proof.
  unfold patched, demo_rewrite. destruct (_ && _); [|intros [= <-]; left; reflexivity].
  destruct (Py.split url "/" !! 2%nat) as [e2|]; simpl; [|discriminate].
  destruct (Py.split url "/" !! 4%nat) as [e4|]; simpl; [|discriminate].
  intros [= <-]. right. reflexivity.
Qed.

Lemma append_assoc (s t p : string) : (s +:+ t) +:+ p = s +:+ (t +:+ p).
Proof. induction s; rewrite ?append_nil, ?append_cons; congruence. Qed.

(** The pieces of a split hold no separator. *)
Lemma cut_before_clean s sep a b :
  sep ≠ "" → Py.cut s sep = Some (a, b) → Py.contains sep a = false.
Proof.
  intros Hsep C. destruct (Py.contains sep a) eqn:Ca; [|reflexivity].
  destruct (contains_cut _ _ Ca) as (x & y & Hxy). apply cut_Some in Hxy.
  pose proof (cut_Some _ _ _ _ C) as Hs.
  assert (E : s = x +:+ sep +:+ (y +:+ sep +:+ b)).
  { rewrite Hs, Hxy, !append_assoc. reflexivity. }
  pose proof (cut_first _ _ _ _ C _ _ E) as Hle.
  rewrite Hxy, !length_append in Hle. destruct sep; [congruence|]. simpl in Hle. lia.
Qed.

Lemma cut_none_clean s sep : Py.cut s sep = None → Py.contains sep s = false.
Proof.
  intros C. destruct (Py.contains sep s) eqn:Cs; [|reflexivity].
  destruct (contains_cut _ _ Cs) as (a & b & H). congruence.
Qed.

Lemma split_pieces_clean s sep :
  sep ≠ "" → Forall (λ x, Py.contains sep x = false) (Py.split s sep).
Proof.
  intros Hsep. unfold Py.split.
  assert (G : ∀ n s, (String.length s ≤ n)%nat →
              Forall (λ x, Py.contains sep x = false) (Py.split_fuel n s sep)).
  { clear s. induction n as [|n IH]; intros s Hn.
    - destruct s; [|simpl in Hn; lia]. constructor; [|constructor].
      destruct sep; [congruence | reflexivity].
    - cbn [Py.split_fuel]. destruct (Py.cut s sep) as [[a b]|] eqn:C.
      + pose proof (cut_shorter _ _ _ _ Hsep C) as Hb.
        constructor; [eapply cut_before_clean; eassumption | apply IH; lia].
      + constructor; [apply cut_none_clean, C | constructor]. }
  apply G. lia.
Qed.

End SelectorMore.

(** X1.  A priority string that begins with a comma has an empty first
    name, so the whole of it is set aside and the default order is used
    (lines 66-71). *)
Theorem selector_leading_comma_is_default (manifest_urls rest : string) :
  get_prioritized_endpoint manifest_urls ("," +:+ rest)
  = get_prioritized_endpoint manifest_urls "".
Proof.
  unfold get_prioritized_endpoint. f_equal.
  unfold priorities_in_force.
  assert (C : Py.cut ("," +:+ rest) "," = Some ("", rest)).
  { rewrite cut_unfold, prefix_append. reflexivity. }
  rewrite (split_head_cut _ _ _ _ C) by (rewrite append_cons; discriminate).
  reflexivity.
Qed.

(** X2.  Under the default order, one candidate URL that calls for the
    demo rewrite and has fewer than five parts between slashes makes the
    selector raise [IndexError]: no list is returned, whatever the other
    URLs are (lines 79-81). *)
Theorem selector_short_demo_url_raises (manifest_urls url : string) :
  In url (Py.split manifest_urls ",") →
  Py.startswith url "http" = true ∨ Py.startswith url "s3" = true →
  Py.contains "s3://" url = true →
  Py.contains "HMDEMO" url = true →
  (length (Py.split url "/") < 5)%nat →
  get_prioritized_endpoint manifest_urls "" = Raise IndexError.
Proof.
  intros Hin Hstart Hs3 Hdemo Hlen.
  rewrite selector_default_spec.
  apply (rmap_raises patched _ url).
  - apply in_default_buckets. auto.
  - unfold patched, demo_rewrite. rewrite Hs3, Hdemo. cbn [andb].
    destruct (Py.split url "/" !! 2%nat); simpl; [|reflexivity].
    rewrite (lookup_ge_None_2 _ 4) by lia. reflexivity.
  - apply patched_raises.
Qed.

Lemma selector_short_demo_url_raises_witness :
  get_prioritized_endpoint "http://h/f.tar,s3://HMDEMO" "" = Raise IndexError.
Proof.
  apply (selector_short_demo_url_raises "http://h/f.tar,s3://HMDEMO" "s3://HMDEMO").
  - right. left. reflexivity.
  - right. reflexivity.
  - reflexivity.
  - reflexivity.
  - vm_compute. lia.
Defined.

(** X3.  Under the default order every candidate returned starts with
    [http] or with [s3], and is what line 79-83 append for a URL of the
    manifest that starts with [http] or with [s3]: a URL of another
    scheme is never a candidate. *)
Theorem selector_default_candidates (manifest_urls : string) (url_list : list string)
    (u : string) :
  get_prioritized_endpoint manifest_urls "" = Ok url_list →
  In u url_list →
  (Py.startswith u "http" = true ∨ Py.startswith u "s3" = true)
  ∧ ∃ url, In url (Py.split manifest_urls ",")
           ∧ (Py.startswith url "http" = true ∨ Py.startswith url "s3" = true)
           ∧ patched url = Ok u.
Proof.
  rewrite selector_default_spec. intros H Hu.
  destruct (rmap_Ok_in _ _ _ _ H Hu) as (url & Hin & Hp).
  apply in_default_buckets in Hin as [Hin Hstart].
  split; [|eauto].
  destruct (patched_shape _ _ Hp) as [->|Hs3]; auto.
Qed.

Lemma selector_default_candidates_witness :
  (Py.startswith "http://h/f.tar" "http" = true ∨ Py.startswith "http://h/f.tar" "s3" = true)
  ∧ ∃ url, In url (Py.split "ftp://x/f.tar,http://h/f.tar" ",")
           ∧ (Py.startswith url "http" = true ∨ Py.startswith url "s3" = true)
           ∧ patched url = Ok "http://h/f.tar".
Proof.
  apply (selector_default_candidates "ftp://x/f.tar,http://h/f.tar" ["http://h/f.tar"]
           "http://h/f.tar").
  - reflexivity.
  - left. reflexivity.
Defined.

Section TargetMore.

(** What follows the last separator.  With fuel enough the last piece of
    a split is the string itself, or what stands after a separator. *)
Lemma split_last_after sep : sep ≠ "" →
  ∀ n s base, (String.length s ≤ n)%nat →
    last (Py.split_fuel n s sep) = Some base →
    s = base ∨ ∃ before, s = before +:+ sep +:+ base.
Proof.
  intros Hsep. induction n as [|n IH]; intros s base Hn Hl.
  - left. simpl in Hl. congruence.
  - cbn [Py.split_fuel] in Hl.
    destruct (Py.cut s sep) as [[a b]|] eqn:C.
    + pose proof (cut_Some _ _ _ _ C) as Hs.
      pose proof (cut_shorter _ _ _ _ Hsep C) as Hb.
      destruct (Py.split_fuel n b sep) as [|x l] eqn:S.
      * exfalso. destruct n; simpl in S; [discriminate|].
        destruct (Py.cut b sep) as [[? ?]|]; discriminate.
      * rewrite last_cons in Hl. rewrite <- S in Hl.
        destruct (last (Py.split_fuel n b sep)) as [y|] eqn:L;
          [|rewrite S in L; apply last_None in L; discriminate].
        injection Hl as <-.
        right. destruct (IH b y ltac:(lia) L) as [->|[before ->]].
        -- exists a. exact Hs.
        -- exists (a +:+ sep +:+ before). rewrite Hs, !append_assoc. reflexivity.
    + left. simpl in Hl. congruence.
Qed.

Lemma drop_append pre t : Py.drop (String.length pre) (pre +:+ t) = t.
Proof. induction pre as [|c pre IH]; [destruct t; reflexivity | simpl; exact IH]. Qed.

Lemma drop_drop k j s : Py.drop k (Py.drop j s) = Py.drop (j + k) s.
Proof.
  revert s; induction j as [|j IH]; intros s; [reflexivity|].
  destruct s as [|c s]; [destruct k; reflexivity|]. simpl. apply IH.
Qed.

Lemma contains_drop sub k s : Py.contains sub (Py.drop k s) = true → Py.contains sub s = true.
Proof.
  revert s; induction k as [|k IH]; intros s H; [exact H|].
  destruct s as [|c s]; [exact H|]. simpl in H.
  rewrite contains_unfold. rewrite (IH _ H). apply orb_true_r.
Qed.

(** A string that ends with [p] holds [p]. *)
Lemma endswith_contains s p : Py.endswith s p = true → Py.contains p s = true.
Proof.
  unfold Py.endswith. intros H. apply andb_true_iff in H as [_ H].
  apply String.eqb_eq in H.
  apply (contains_drop p (String.length s - String.length p)).
  rewrite H, contains_unfold.
  assert (Hp : p +:+ "" = p)
    by (clear; induction p as [|c p IH]; [reflexivity | rewrite append_cons; congruence]).
  pose proof (prefix_append p "") as P. rewrite Hp in P. rewrite P. reflexivity.
Qed.

Lemma endswith_after pre t p :
  t ≠ "" → String.length p = 1%nat →
  Py.endswith (pre +:+ t) p = true → Py.endswith t p = true.
Proof.
  intros Ht Hp. unfold Py.endswith. rewrite length_append, Hp.
  assert (Hlen : (0 < String.length t)%nat) by (destruct t; [congruence | simpl; lia]).
  intros H. apply andb_true_iff in H as [_ H].
  apply andb_true_iff. split; [apply Nat.leb_le; lia|].
  replace (String.length pre + String.length t - 1)%nat
    with (String.length pre + (String.length t - 1))%nat in H by lia.
  rewrite <- drop_drop, drop_append in H. exact H.
Qed.

End TargetMore.

(** X4.  The file a download goes to is named by the destination,
    [/fastqs/] and what stands after the last slash of the first
    candidate URL, the whole URL when it has no slash: the split of
    line 107 never fails.  That last part holds no slash.  It can be
    empty: for a URL that ends in a slash the target is the [fastqs]
    directory itself, written with a slash at its end. *)
Theorem target_is_last_url_part (destination url0 : string) :
  ∃ base,
    target_path destination url0 = Ok (destination +:+ "/fastqs/" +:+ base)
    ∧ Py.contains "/" base = false
    ∧ (url0 = base ∨ ∃ before, url0 = before +:+ "/" +:+ base)
    ∧ (Py.endswith url0 "/" = true → base = "").
Proof.
  destruct (target_path_eq destination url0) as (base & Hl & Ht).
  assert (Hc : Py.contains "/" base = false).
  { pose proof (split_pieces_clean url0 "/" ltac:(discriminate)) as Hc.
    rewrite Forall_forall in Hc. apply Hc. apply last_Some_elem_of, Hl. }
  assert (Hd : url0 = base ∨ ∃ before, url0 = before +:+ "/" +:+ base).
  { apply (split_last_after "/" ltac:(discriminate) (String.length url0));
      [lia | exact Hl]. }
  exists base. split; [exact Ht|]. split; [exact Hc|]. split; [exact Hd|].
  intros He. destruct base as [|c base]; [reflexivity|]. exfalso.
  assert (Hb : Py.endswith (String c base) "/" = true).
  { destruct Hd as [<-|[before ->]]; [exact He|].
    rewrite <- append_assoc in He.
    apply (endswith_after (before +:+ "/") (String c base) "/"); [discriminate | reflexivity | exact He]. }
  apply endswith_contains in Hb. congruence.
Qed.

(** A URL that ends in a slash: the target is the staging directory. *)
Lemma target_is_last_url_part_witness :
  target_path "d" "http://h/dir/" = Ok ("d" +:+ "/fastqs/" +:+ "").
Proof.
  destruct (target_is_last_url_part "d" "http://h/dir/") as (base & Ht & _ & _ & He).
  rewrite (He ltac:(vm_compute; reflexivity)) in Ht. exact Ht.
Defined.

(** ** More on the downloader *)

Section DownloadMore.

Implicit Types w : world.

Lemma connect_skips E url rest hdr eps w :
  remote E url = None →
  ∃ eps',
    connect E (url :: rest) hdr eps w
    = connect E rest hdr eps'
        (World (fs w) (dirs w) (sent w ++ [Request url []]) (ran w) (stderr w)).
Proof.
  intros Hr. cbn [connect].
  destruct (Py.split url ":") as [|s0 l] eqn:S; [exfalso; exact (split_nonempty _ _ S)|].
  enter lift. cbn [head of_index].
  unfold try_except at 1. unfold bind at 1.
  unfold get_url_obj, try_except, Net.urlopen. cbn [req_url req_headers].
  rewrite Hr. unfold raise. eauto.
Qed.

Lemma connect_after_unreachable E : ∀ pre rest hdr eps w,
  Forall (λ u, remote E u = None) pre →
  ∃ eps',
    connect E (pre ++ rest) hdr eps w
    = connect E rest hdr eps'
        (World (fs w) (dirs w) (sent w ++ requests_for pre) (ran w) (stderr w)).
Proof.
  induction pre as [|u pre IH]; intros rest hdr eps w Hpre.
  - exists eps. simpl. rewrite app_nil_r. destruct w; reflexivity.
  - inversion Hpre as [|? ? Hu Hpre']; subst.
    destruct (connect_skips E u (pre ++ rest) hdr eps w Hu) as [eps1 H1].
    destruct (IH rest hdr eps1
                (World (fs w) (dirs w) (sent w ++ [Request u []]) (ran w) (stderr w)) Hpre')
      as [eps2 H2].
    exists eps2. rewrite <- app_comm_cons, H1, H2. cbn [fs dirs sent ran stderr].
    unfold requests_for. cbn [map]. rewrite <- app_assoc. reflexivity.
Qed.

Lemma connect_none E l hdr eps w :
  Forall (λ u, remote E u = None) l →
  ∃ eps',
    connect E l hdr eps w
    = (Ok (None, eps'),
       World (fs w) (dirs w) (sent w ++ requests_for l) (ran w) (stderr w)).
Proof.
  intros Hl. destruct (connect_after_unreachable E l [] hdr eps w Hl) as [eps' H].
  rewrite app_nil_r in H. exists eps'. rewrite H. reflexivity.
Qed.

(** Making a file that was not there, outside of [q]. *)
Lemma is_dir_fresh_insert w k v q :
  Path.child (Path.norm q) k = None → k ≠ Path.norm q →
  FS.is_dir (set_fs (insert k v) w) q = FS.is_dir w q.
Proof.
  intros Hc Hne.
  assert (G : ∀ e, e ∈ FS.entries (set_fs (insert k v) w) q ↔ e ∈ FS.entries w q).
  { intros e. unfold FS.entries.
    rewrite !elem_of_remove_dups, !list_elem_of_omap.
    split; intros (p & Hp & Hpe); exists p; (split; [|exact Hpe]);
      apply elem_of_paths; apply elem_of_paths in Hp;
      rewrite ?set_fs_fs in *;
      change (dirs (set_fs (insert k v) w)) with (dirs w) in *;
      (destruct Hp as [Hp|Hp]; [|auto]);
      (destruct (decide (k = p)) as [<-|Hkp]; [congruence|]);
      rewrite ?lookup_insert_ne in * by exact Hkp; auto. }
  assert (N : FS.entries (set_fs (insert k v) w) q ≠ [] ↔ FS.entries w q ≠ []).
  { split; intros H E; apply H.
    - destruct (FS.entries (set_fs (insert k v) w) q) as [|e es] eqn:E'; [reflexivity|].
      assert (He : e ∈ FS.entries w q) by (apply G; left).
      rewrite E in He. inversion He.
    - destruct (FS.entries w q) as [|e es] eqn:E'; [reflexivity|].
      assert (He : e ∈ FS.entries (set_fs (insert k v) w) q) by (apply G; left).
      rewrite E in He. inversion He. }
  unfold FS.is_dir, FS.is_file.
  change (dirs (set_fs (insert k v) w)) with (dirs w).
  rewrite set_fs_fs, lookup_insert_ne by exact Hne.
  f_equal. f_equal. apply bool_decide_ext. exact N.
Qed.

Lemma download_none E l file_name bs w :
  FS.is_dir w (partial_path file_name) = false →
  Forall (λ u, remote E u = None) l →
  download E l file_name bs w
  = (Ok None, World (fs w) (dirs w) (sent w ++ requests_for l) (ran w) (stderr w)).
Proof.
  intros Hpdir Hdown.
  unfold download. cbv zeta. enter FS.exists_. rewrite Hpdir, orb_false_r.
  assert (Hcur : ∃ current_byte,
            (if FS.is_file w (partial_path file_name)
             then FS.getsize (partial_path file_name) else ret 0) w
            = (Ok current_byte, w)).
  { unfold FS.is_file. destruct (fs w !! Path.norm (partial_path file_name)) as [p|] eqn:Hp.
    - rewrite bool_decide_eq_true_2 by eauto. unfold FS.getsize. rewrite Hp. eauto.
    - rewrite bool_decide_eq_false_2 by (intros [? ?]; discriminate). unfold ret. eauto. }
  destruct Hcur as [current_byte Hcur].
  unfold bind at 1. rewrite Hcur.
  destruct (connect_none E l
              [("Range", "bytes=" +:+ pretty current_byte +:+ "-")] [] w Hdown)
    as [eps' Hc].
  unfold bind at 1. rewrite Hc. reflexivity.
Qed.

End DownloadMore.

(** X5.  The candidates are tried in order: when the URLs before [url]
    do not answer and [url] does, the object of [url] is taken, one
    request has gone to each URL up to [url] and none to those after it;
    no request carries a header (lines 131-141). *)
Theorem candidates_tried_in_order (E : env) (pre : list string) (url : string)
    (post : list string) (http_header : list (string * string)) (eps : list string)
    (w : world) (content : bytes) :
  Forall (λ u, remote E u = None) pre →
  remote E url = Some content →
  ∃ endpoint eps',
    connect E (pre ++ url :: post) http_header eps w
    = (Ok (Some (content, url, endpoint), eps'),
       World (fs w) (dirs w) (sent w ++ requests_for (pre ++ [url])) (ran w) (stderr w)).
Proof.
  intros Hpre Hurl.
  destruct (connect_after_unreachable E pre (url :: post) http_header eps w Hpre)
    as [eps1 H1].
  destruct (connect_first E url post http_header eps1
              (World (fs w) (dirs w) (sent w ++ requests_for pre) (ran w) (stderr w))
              content Hurl) as (endpoint & eps2 & H2).
  exists endpoint, eps2. rewrite H1, H2. cbn [fs dirs sent ran stderr].
  unfold requests_for. rewrite map_app, app_assoc. reflexivity.
Qed.

Lemma candidates_tried_in_order_witness :
  ∃ endpoint eps',
    connect (sample_env None 0) (["s3://b/a.tar"] ++ "http://h/a.tar" :: ["http://g/a.tar"])
      [] [] (staging [])
    = (Ok (Some (["A"; "B"]%byte, "http://h/a.tar", endpoint), eps'),
       World (fs (staging [])) (dirs (staging []))
         (sent (staging []) ++ requests_for (["s3://b/a.tar"] ++ ["http://h/a.tar"]))
         (ran (staging [])) (stderr (staging []))).
Proof.
  apply (candidates_tried_in_order (sample_env None 0) ["s3://b/a.tar"] "http://h/a.tar"
           ["http://g/a.tar"] [] [] (staging []) ["A"; "B"]%byte).
  - repeat constructor.
  - reflexivity.
Defined.

(** X6.  An entry none of whose candidates answers: one request goes to
    each candidate, in order; no file is made or changed and no command
    is run; the entry is counted with code 2 and adds no file group
    (lines 114-146). *)
Theorem unreachable_entry_is_counted (E : env) (w : world) (destination bucket : string)
    (no_verify : bool) (block_size : Z) (mf : mfile) (url0 : string)
    (rest : list string) (file_name : string)
    (failed_files : list Z) (file_groups : list file_group) :
  get_prioritized_endpoint (urls mf) "" = Ok (url0 :: rest) →
  target_path destination url0 = Ok file_name →
  FS.is_file w file_name = false →
  FS.is_dir w file_name = false →
  FS.is_dir w (partial_path file_name) = false →
  Forall (λ u, remote E u = None) (url0 :: rest) →
  ∃ w' : world,
    manifest_entry E destination bucket no_verify block_size mf
      (failed_files, file_groups) w
    = (Ok (failed_files ++ [2], file_groups), w')
    ∧ fs w' = fs w
    ∧ sent w' = sent w ++ requests_for (url0 :: rest)
    ∧ ran w' = ran w.
Proof.
  intros Hsel Hpath Hfile Hdir Hpdir Hdown.
  unfold manifest_entry. enter lift. rewrite Hsel.
  enter lift. rewrite Hpath.
  enter FS.exists_. rewrite Hfile, Hdir. cbn [orb].
  unfold bind at 1. rewrite (download_none E _ _ _ _ Hpdir Hdown).
  unfold ret. eexists. split; [reflexivity|]. repeat split.
Qed.

Lemma unreachable_entry_is_counted_witness :
  ∃ w' : world,
    manifest_entry (sample_env None 0) "d" "b" false 1000000
      (MFile "id9" "" "" "s" "http://gone/x.tar,s3://b/x.tar") ([], []) (staging [])
    = (Ok ([] ++ [2], []), w')
    ∧ fs w' = fs (staging [])
    ∧ sent w' = sent (staging []) ++ requests_for ("http://gone/x.tar" :: ["s3://b/x.tar"])
    ∧ ran w' = ran (staging []).
Proof.
  apply (unreachable_entry_is_counted (sample_env None 0) (staging []) "d" "b" false 1000000
           (MFile "id9" "" "" "s" "http://gone/x.tar,s3://b/x.tar")
           "http://gone/x.tar" ["s3://b/x.tar"] "d/fastqs/x.tar").
  - reflexivity.
  - reflexivity.
  - vm_compute. reflexivity.
  - vm_compute. reflexivity.
  - vm_compute. reflexivity.
  - repeat constructor.
Defined.

(** X7.  The transfer loop with a block size other than 0 appends the
    whole response to the partial file and advances [current_byte] by the
    length of the response, whatever the block size is; with a block
    size of 0 the first read is empty and the loop ends at once, with
    nothing transferred (lines 154-166). *)
Theorem transfer_whatever_block_size (res : bytes) (endpoint : string)
    (block_size current_byte file_size : Z) (file : string) (w : world) (p : bytes) :
  fs w !! Path.norm file = Some p →
  (res ≠ [] → file_size ≠ 0) →
  (block_size ≠ 0 →
   transfer (S (length res)) res endpoint block_size current_byte file_size file w
   = (Ok (current_byte + Z.of_nat (length res)),
      set_fs (insert (Path.norm file) (p ++ res)) w))
  ∧ (block_size = 0 →
     transfer (S (length res)) res endpoint block_size current_byte file_size file w
     = (Ok current_byte, w)).
Proof.
  intros Hp Hsz. split.
  - intros Hbs. apply transfer_spec; [exact Hbs | exact Hsz | lia | exact Hp].
  - intros ->. reflexivity.
Qed.

Lemma transfer_whatever_block_size_witness :
  transfer (S (length ["A"; "B"; "C"]%byte)) ["A"; "B"; "C"]%byte "HTTP" 2 0 3
    "d/fastqs/a.tar.partial" (staging [("d/fastqs/a.tar.partial", [])])
  = (Ok (0 + Z.of_nat (length ["A"; "B"; "C"]%byte)),
     set_fs (insert (Path.norm "d/fastqs/a.tar.partial") ([] ++ ["A"; "B"; "C"]%byte))
       (staging [("d/fastqs/a.tar.partial", [])])).
Proof.
  apply (transfer_whatever_block_size ["A"; "B"; "C"]%byte "HTTP" 2 0 3
           "d/fastqs/a.tar.partial" (staging [("d/fastqs/a.tar.partial", [])]) []).
  - vm_compute. reflexivity.
  - intros _. lia.
  - lia.
Defined.

(** X8.  When the size the server gives is 0 and the response is not
    empty, the loop writes the first block and then raises
    [ZeroDivisionError], from the percentage of the status line
    (lines 163-166). *)
Theorem transfer_divides_by_file_size (res : bytes) (endpoint : string)
    (block_size current_byte : Z) (file : string) (w : world) (p : bytes) :
  fs w !! Path.norm file = Some p →
  res ≠ [] →
  block_size ≠ 0 →
  transfer (S (length res)) res endpoint block_size current_byte 0 file w
  = (Raise ZeroDivisionError,
     set_fs (insert (Path.norm file) (p ++ fst (read block_size res))) w).
Proof.
  intros Hp Hres Hbs. cbn [transfer]. unfold get_buffer.
  destruct (read_spec block_size res Hbs) as (b & r & Hr & Happ & Hnil).
  rewrite Hr. cbn [fst]. destruct b as [|x b]; [specialize (Hnil eq_refl); congruence|].
  enter FS.append. rewrite Hp. reflexivity.
Qed.

Lemma transfer_divides_by_file_size_witness :
  transfer (S (length ["A"; "B"; "C"]%byte)) ["A"; "B"; "C"]%byte "HTTP" 2 0 0
    "d/fastqs/a.tar.partial" (staging [("d/fastqs/a.tar.partial", [])])
  = (Raise ZeroDivisionError,
     set_fs (insert (Path.norm "d/fastqs/a.tar.partial")
               ([] ++ fst (read 2 ["A"; "B"; "C"]%byte)))
       (staging [("d/fastqs/a.tar.partial", [])])).
Proof.
  apply (transfer_divides_by_file_size ["A"; "B"; "C"]%byte "HTTP" 2 0
           "d/fastqs/a.tar.partial" (staging [("d/fastqs/a.tar.partial", [])]) []).
  - vm_compute. reflexivity.
  - discriminate.
  - lia.
Defined.

(** X9.  A download that finds neither the target nor a partial file.
    With the directory of the target in place, the partial file is made,
    filled from the first candidate that answers and renamed: afterwards
    the target is there and the partial file is not, the cursor ends at
    the size of the content, which is the total, and two requests were
    sent.  Without that directory [open] raises once the first request
    is out, and no file is made (lines 114-169). *)
Theorem fresh_download_needs_staging (E : env) (w : world) (url : string)
    (rest : list string) (file_name : string) (block_size : Z) (content : bytes) :
  remote E url = Some content →
  fs w !! Path.norm (partial_path file_name) = None →
  FS.is_dir w (partial_path file_name) = false →
  FS.is_dir w file_name = false →
  Path.norm (partial_path file_name) ≠ Path.norm file_name →
  Path.child (Path.norm file_name) (Path.norm (partial_path file_name)) = None →
  block_size ≠ 0 →
  (FS.parent_exists w (partial_path file_name) = true →
   ∃ w' : world,
     download E (url :: rest) file_name block_size w
     = (Ok (Some (Z.of_nat (length content), Z.of_nat (length content))), w')
     ∧ is_Some (fs w' !! Path.norm file_name)
     ∧ fs w' !! Path.norm (partial_path file_name) = None
     ∧ sent w' = sent w ++ [Request url []; Request url []])
  ∧ (FS.parent_exists w (partial_path file_name) = false →
     download E (url :: rest) file_name block_size w
     = (Raise IOError,
        World (fs w) (dirs w) (sent w ++ [Request url []]) (ran w) (stderr w))).
Proof.
  intros Hr Hp Hpdir Hdir Hne Hchild Hbs.
  set (tmp := partial_path file_name) in *.
  assert (Hfile : FS.is_file w tmp = false).
  { unfold FS.is_file. rewrite Hp. apply bool_decide_eq_false_2. intros [? ?]; discriminate. }
  destruct (connect_first E url rest [("Range", "bytes=" +:+ pretty 0 +:+ "-")] [] w content Hr)
    as (endpoint & eps' & Hc).
  set (w1 := World (fs w) (dirs w) (sent w ++ [Request url []]) (ran w) (stderr w)) in *.
  assert (Hopen : download E (url :: rest) file_name block_size w
                  = (let* _ := FS.open_append tmp in
                     let* file_size := get_file_size E url in
                     let* current_byte :=
                       transfer (S (length content)) content endpoint block_size 0 file_size
                         tmp in
                     let* _ := FS.move tmp file_name in
                     ret (Some (current_byte, file_size))) w1).
  { unfold download. fold tmp. cbv zeta.
    enter FS.exists_. rewrite Hfile, Hpdir. cbn [orb].
    unfold bind at 1. unfold ret at 1.
    unfold bind at 1. rewrite Hc. reflexivity. }
  rewrite Hopen. clear Hopen.
  assert (Hparent : FS.parent_exists w1 tmp = FS.parent_exists w tmp) by reflexivity.
  split; intros Hpar.
  - enter FS.open_append.
    change (FS.is_dir w1 tmp) with (FS.is_dir w tmp). rewrite Hpdir.
    change (fs w1) with (fs w). rewrite Hp, Hparent, Hpar.
    unfold bind at 1. unfold get_file_size, Net.content_length. rewrite Hr.
    set (w2 := World (fs (set_fs (insert (Path.norm tmp) []) w1))
                 (dirs (set_fs (insert (Path.norm tmp) []) w1))
                 (sent (set_fs (insert (Path.norm tmp) []) w1) ++ [Request url []])
                 (ran (set_fs (insert (Path.norm tmp) []) w1))
                 (stderr (set_fs (insert (Path.norm tmp) []) w1))).
    unfold bind at 1.
    rewrite (transfer_spec _ _ _ _ _ _ _ w2 []); [|exact Hbs| |lia|apply lookup_insert_eq].
    2:{ intros Hcn. destruct content; [congruence | simpl; lia]. }
    enter FS.move. rewrite set_fs_fs, lookup_insert_eq.
    assert (Hd3 : FS.is_dir (set_fs (insert (Path.norm tmp) ([] ++ content)) w2) file_name
                  = false).
    { change w2 with (set_fs (insert (Path.norm tmp) [])
                        (World (fs w) (dirs w) ((sent w ++ [Request url []]) ++ [Request url []])
                           (ran w) (stderr w))) at 1.
      rewrite set_fs_insert_twice, is_dir_fresh_insert by assumption. exact Hdir. }
    rewrite Hd3. unfold ret. eexists. split; [reflexivity|].
    split; [|split].
    + rewrite set_fs_fs, lookup_insert_eq. eexists. reflexivity.
    + rewrite set_fs_fs, lookup_insert_ne by (intros H; apply Hne; symmetry; exact H).
      apply lookup_delete_eq.
    + simpl. rewrite <- app_assoc. reflexivity.
  - enter FS.open_append.
    change (FS.is_dir w1 tmp) with (FS.is_dir w tmp). rewrite Hpdir.
    change (fs w1) with (fs w). rewrite Hp, Hparent, Hpar. reflexivity.
Qed.

(** The theorem in the run directory [d] with its [fastqs] directory, and
    in a world without directories. *)
Lemma fresh_download_needs_staging_witness :
  (∃ w' : world,
     download (sample_env None 0) ("http://h/a.tar" :: []) "d/fastqs/a.tar" 1000000 (staging [])
     = (Ok (Some (Z.of_nat (length ["A"; "B"]%byte), Z.of_nat (length ["A"; "B"]%byte))), w')
     ∧ is_Some (fs w' !! Path.norm "d/fastqs/a.tar")
     ∧ fs w' !! Path.norm (partial_path "d/fastqs/a.tar") = None
     ∧ sent w' = sent (staging []) ++ [Request "http://h/a.tar" []; Request "http://h/a.tar" []])
  ∧ download (sample_env None 0) ("http://h/a.tar" :: []) "d/fastqs/a.tar" 1000000
      (World ∅ [] [] [] [])
    = (Raise IOError, World ∅ [] ([] ++ [Request "http://h/a.tar" []]) [] []).
Proof.
  split.
  - apply (fresh_download_needs_staging (sample_env None 0) (staging []) "http://h/a.tar" []
             "d/fastqs/a.tar" 1000000 ["A"; "B"]%byte).
    + reflexivity.
    + vm_compute. reflexivity.
    + vm_compute. reflexivity.
    + vm_compute. reflexivity.
    + vm_compute. discriminate.
    + vm_compute. reflexivity.
    + lia.
    + vm_compute. reflexivity.
  - apply (fresh_download_needs_staging (sample_env None 0) (World ∅ [] [] [] [])
             "http://h/a.tar" [] "d/fastqs/a.tar" 1000000 ["A"; "B"]%byte).
    + reflexivity.
    + vm_compute. reflexivity.
    + vm_compute. reflexivity.
    + vm_compute. reflexivity.
    + vm_compute. discriminate.
    + vm_compute. reflexivity.
    + lia.
    + vm_compute. reflexivity.
Defined.

(** ** More on the orchestrator *)

Section OrchestratorMore.

Implicit Types w : world.

Lemma for_each_app {A S} (l1 l2 : list A) (body : A → S → M S) (s : S) w :
  for_each (l1 ++ l2) body s w
  = (let* s' := for_each l1 body s in for_each l2 body s') w.
Proof.
  revert s w; induction l1 as [|x l1 IH]; intros s w; [reflexivity|].
  cbn [for_each app]. unfold bind.
  destruct (body x s w) as [[s'|e] w1]; [|reflexivity].
  rewrite IH. reflexivity.
Qed.

Lemma skipped_entry E destination bucket no_verify block_size mf failed_files file_groups w :
  nothing_to_fetch w destination mf →
  ∃ failed_files',
    manifest_entry E destination bucket no_verify block_size mf
      (failed_files, file_groups) w
    = (Ok (failed_files', file_groups), w).
Proof.
  intros [Hnone | (url0 & rest & file_name & Hsel & Hpath & Hex)];
    unfold manifest_entry; enter lift.
  - rewrite Hnone. unfold ret. eauto.
  - rewrite Hsel. enter lift. rewrite Hpath. enter FS.exists_. rewrite Hex.
    unfold ret. eauto.
Qed.

Lemma skipped_entries E destination bucket no_verify block_size w :
  ∀ manifest failed_files file_groups,
    Forall (nothing_to_fetch w destination) manifest →
    ∃ failed_files',
      for_each manifest (manifest_entry E destination bucket no_verify block_size)
        (failed_files, file_groups) w
      = (Ok (failed_files', file_groups), w).
Proof.
  induction manifest as [|mf manifest IH]; intros failed_files file_groups Hall.
  - exists failed_files. reflexivity.
  - inversion Hall as [|? ? Hmf Hrest]; subst.
    destruct (skipped_entry E destination bucket no_verify block_size mf
                failed_files file_groups w Hmf) as [f1 H1].
    destruct (IH f1 file_groups Hrest) as [f2 H2].
    exists f2. cbn [for_each]. unfold bind at 1. rewrite H1. exact H2.
Qed.

End OrchestratorMore.

(** X10.  A manifest every entry of which has either no candidate URL or
    a target that is there already: [download_manifest] returns no file
    group, sends no request, runs no command and leaves the files as they
    are.  In particular the files found in place are neither verified nor
    extracted nor uploaded (lines 97-112). *)
Theorem settled_manifest_does_nothing (E : env) (w : world) (manifest : list mfile)
    (destination bucket : string) (no_verify : bool) (block_size : Z) :
  Forall (nothing_to_fetch w destination) manifest →
  download_manifest E manifest destination bucket no_verify block_size w = (Ok [], w).
Proof.
  intros Hall. unfold download_manifest. unfold bind at 1.
  destruct (skipped_entries E destination bucket no_verify block_size w manifest [] [] Hall)
    as [f' ->].
  reflexivity.
Qed.

Lemma settled_manifest_does_nothing_witness :
  download_manifest (sample_env None 0)
    [sample_entry; MFile "id2" "" "" "s" "ftp://h/b.tar"] "d" "b" false 1000000
    (staging [("d/fastqs/a.tar", ["A"; "B"]%byte)])
  = (Ok [], staging [("d/fastqs/a.tar", ["A"; "B"]%byte)]).
Proof.
  apply settled_manifest_does_nothing.
  constructor; [|constructor; [|constructor]].
  - right. exists "http://h/a.tar", [], "d/fastqs/a.tar".
    repeat split; vm_compute; reflexivity.
  - left. reflexivity.
Defined.

Section AfterDownload.

Implicit Types w : world.

(** What follows the verification does not look at [failed_files]: it
    hands them on. *)
Lemma failed_files_handed_on E mf destination bucket file_name file_groups w failed failed' :
  snd (after_download E mf destination bucket file_name true (failed, file_groups) w)
  = snd (after_download E mf destination bucket file_name true (failed', file_groups) w)
  ∧ fst (after_download E mf destination bucket file_name true (failed, file_groups) w)
    = rbind (fst (after_download E mf destination bucket file_name true
                    (failed', file_groups) w))
        (λ st, Ok (failed, snd st)).
Proof.
  unfold after_download, upload_stage, bind, try_except, ret.
  destruct (untar_files_downloaded E destination w) as [[fg|e] w1].
  - destruct (upload2bucket E destination bucket true w1) as [[[]|e] w2].
    + destruct (clear_fastqs destination w2) as [[[]|e] w3]; split; reflexivity.
    + cbn [write_stderr]. split; reflexivity.
  - cbn [write_stderr].
    destruct (clear_fastqs destination _) as [[[]|e'] w3]; split; reflexivity.
Qed.

Lemma after_verification E mf destination bucket file_name failed file_groups w content :
  fs w !! Path.norm file_name = Some content →
  after_download E mf destination bucket file_name false (failed, file_groups) w
  = after_download E mf destination bucket file_name true
      (if String.eqb (MD5.hexdigest (MD5.update MD5.new content)) (md5 mf)
       then failed else failed ++ [3], file_groups) w.
Proof.
  intros Hc. unfold after_download.
  unfold bind at 1. unfold bind at 1.
  rewrite (checksum_matches_spec _ _ _ _ Hc).
  unfold bind at 3. unfold ret at 3.
  destruct (String.eqb _ _); reflexivity.
Qed.

Lemma after_download_checked E mf destination bucket file_name failed file_groups w :
  after_download E mf destination bucket file_name false (failed, file_groups) w
  = match checksum_matches file_name (md5 mf) w with
    | (Ok b, w0) =>
        after_download E mf destination bucket file_name true
          (if b then failed else failed ++ [3], file_groups) w0
    | (Raise e, w0) => (Raise e, w0)
    end.
Proof.
  unfold after_download. unfold bind at 1. unfold bind at 1.
  destruct (checksum_matches file_name (md5 mf) w) as [[b|e] w0]; [|reflexivity].
  destruct b; reflexivity.
Qed.

(** What an entry may add to the two lists. *)
Lemma after_download_adds E mf destination bucket file_name no_verify failed file_groups w
    failed' file_groups' w' :
  after_download E mf destination bucket file_name no_verify (failed, file_groups) w
  = (Ok (failed', file_groups'), w') →
  (failed' = failed ∨ failed' = failed ++ [3])
  ∧ (file_groups' = file_groups ∨ ∃ fg, file_groups' = file_groups ++ [fg]).
Proof.
  assert (T : ∀ f w,
            after_download E mf destination bucket file_name true (f, file_groups) w
            = (Ok (failed', file_groups'), w') →
            failed' = f
            ∧ (file_groups' = file_groups ∨ ∃ fg, file_groups' = file_groups ++ [fg])).
  { intros f w0. unfold after_download, upload_stage, bind, try_except, ret.
    destruct (untar_files_downloaded E destination w0) as [[fg|e] w1].
    - destruct (upload2bucket E destination bucket true w1) as [[[]|e] w2].
      + destruct (clear_fastqs destination w2) as [[[]|e] w3]; [|discriminate].
        intros [= <- <- <-]. eauto.
      + cbn [write_stderr]. intros [= <- <- <-]. eauto.
    - cbn [write_stderr].
      destruct (clear_fastqs destination _) as [[[]|e'] w3]; [|discriminate].
      intros [= <- <- <-]. eauto. }
  destruct no_verify.
  - intros H. apply T in H as [-> Hg]. auto.
  - rewrite after_download_checked.
    destruct (checksum_matches file_name (md5 mf) w) as [[b|e] w0]; [|discriminate].
    intros H. apply T in H as [-> Hg]. destruct b; auto.
Qed.

Lemma manifest_entry_adds E destination bucket no_verify block_size mf failed file_groups w
    failed' file_groups' w' :
  manifest_entry E destination bucket no_verify block_size mf (failed, file_groups) w
  = (Ok (failed', file_groups'), w') →
  (∃ code, failed' = failed ++ code ∧ (code = [] ∨ code = [1] ∨ code = [2] ∨ code = [3]))
  ∧ (file_groups' = file_groups ∨ ∃ fg, file_groups' = file_groups ++ [fg]).
Proof.
  unfold manifest_entry. unfold bind at 1. unfold lift at 1.
  destruct (get_prioritized_endpoint (urls mf) "") as [[|url0 url_list]|e]; [| |discriminate].
  - intros [= <- <- <-]. split; [exists [1]|]; auto.
  - unfold bind at 1. unfold lift at 1.
    destruct (target_path destination url0) as [file_name|e]; [|discriminate].
    unfold bind at 1. unfold FS.exists_ at 1.
    destruct (FS.is_file w file_name || FS.is_dir w file_name).
    + intros [= <- <- <-]. split; [exists []; rewrite app_nil_r|]; auto.
    + unfold bind at 1.
      destruct (download E (url0 :: url_list) file_name block_size w) as [[[got|]|e] w1];
        [| |discriminate].
      * intros H. apply after_download_adds in H as [[->| ->] Hg].
        -- split; [exists []; rewrite app_nil_r|]; auto.
        -- split; [exists [3]|]; auto 6.
      * intros [= <- <- <-]. split; [exists [2]|]; auto 6.
Qed.

End AfterDownload.

Section ManifestLoop.

Implicit Types w : world.

Lemma manifest_loop_bounds E destination bucket no_verify block_size :
  ∀ manifest failed file_groups w failed' file_groups' w',
    for_each manifest (manifest_entry E destination bucket no_verify block_size)
      (failed, file_groups) w
    = (Ok (failed', file_groups'), w') →
    (length file_groups' ≤ length file_groups + length manifest)%nat
    ∧ (length failed' ≤ length failed + length manifest)%nat
    ∧ ∃ more, file_groups' = file_groups ++ more.
Proof.
  induction manifest as [|mf manifest IH]; intros failed file_groups w failed' file_groups' w'.
  - intros [= <- <- <-]. simpl. repeat split; try lia. exists []. rewrite app_nil_r. reflexivity.
  - cbn [for_each]. unfold bind at 1.
    destruct (manifest_entry E destination bucket no_verify block_size mf
                (failed, file_groups) w) as [[[f1 g1]|e] w1] eqn:Hentry; [|discriminate].
    intros Hrest. apply IH in Hrest as (Hg & Hf & more & Hmore).
    apply manifest_entry_adds in Hentry as [(code & -> & Hcode) Hg1].
    rewrite length_app in Hf.
    assert (length code ≤ 1)%nat
      by (destruct Hcode as [->|[->|[->| ->]]]; simpl; lia).
    destruct Hg1 as [->|[fg ->]].
    + simpl. repeat split; try lia. eauto.
    + rewrite length_app in Hg. simpl in *. repeat split; try lia.
      exists ([fg] ++ more). rewrite app_assoc. exact Hmore.
Qed.

End ManifestLoop.

(** X11.  A checksum that does not match stops nothing: after the
    download the entry goes through the same extraction, upload and
    clearing, with the same effects, as when verification is switched
    off; the only difference is the code 3 added to [failed_files]
    (lines 171-198). *)
Theorem checksum_failure_is_not_fatal (E : env) (mf : mfile)
    (destination bucket file_name : string) (failed : list Z)
    (file_groups : list file_group) (w : world) (content : bytes) :
  fs w !! Path.norm file_name = Some content →
  MD5.hexdigest (MD5.update MD5.new content) ≠ md5 mf →
  snd (after_download E mf destination bucket file_name false (failed, file_groups) w)
  = snd (after_download E mf destination bucket file_name true (failed, file_groups) w)
  ∧ fst (after_download E mf destination bucket file_name false (failed, file_groups) w)
    = rbind (fst (after_download E mf destination bucket file_name true
                    (failed, file_groups) w))
        (λ st, Ok (failed ++ [3], snd st)).
Proof.
  intros Hc Hne. rewrite (after_verification _ _ _ _ _ _ _ _ _ Hc).
  apply String.eqb_neq in Hne. rewrite Hne.
  apply failed_files_handed_on.
Qed.

Lemma checksum_failure_is_not_fatal_witness :
  snd (after_download (sample_env None 0) (MFile "id1" "00" "2" "s" "http://h/a.tar")
         "d" "b" "d/fastqs/a.tar" false ([], [])
         (staging [("d/fastqs/a.tar", ["A"; "B"]%byte)]))
  = snd (after_download (sample_env None 0) (MFile "id1" "00" "2" "s" "http://h/a.tar")
           "d" "b" "d/fastqs/a.tar" true ([], [])
           (staging [("d/fastqs/a.tar", ["A"; "B"]%byte)]))
  ∧ fst (after_download (sample_env None 0) (MFile "id1" "00" "2" "s" "http://h/a.tar")
           "d" "b" "d/fastqs/a.tar" false ([], [])
           (staging [("d/fastqs/a.tar", ["A"; "B"]%byte)]))
    = rbind (fst (after_download (sample_env None 0)
                    (MFile "id1" "00" "2" "s" "http://h/a.tar")
                    "d" "b" "d/fastqs/a.tar" true ([], [])
                    (staging [("d/fastqs/a.tar", ["A"; "B"]%byte)])))
        (λ st, Ok ([] ++ [3], snd st)).
Proof.
  apply (checksum_failure_is_not_fatal (sample_env None 0)
           (MFile "id1" "00" "2" "s" "http://h/a.tar") "d" "b" "d/fastqs/a.tar" [] []
           (staging [("d/fastqs/a.tar", ["A"; "B"]%byte)]) ["A"; "B"]%byte).
  - vm_compute. reflexivity.
  - vm_compute. discriminate.
Defined.

(** X12.  An entry that ends without an exception leaves what was in
    [failed_files] and [file_groups] in place; it adds at most one code,
    which is 1, 2 or 3, and at most one file group (lines 97-198). *)
Theorem entry_adds_at_most_one (E : env) (destination bucket : string) (no_verify : bool)
    (block_size : Z) (mf : mfile) (failed : list Z) (file_groups : list file_group)
    (w : world) (failed' : list Z) (file_groups' : list file_group) (w' : world) :
  manifest_entry E destination bucket no_verify block_size mf (failed, file_groups) w
  = (Ok (failed', file_groups'), w') →
  (∃ code, failed' = failed ++ code ∧ (code = [] ∨ code = [1] ∨ code = [2] ∨ code = [3]))
  ∧ (file_groups' = file_groups ∨ ∃ fg, file_groups' = file_groups ++ [fg]).
Proof. apply manifest_entry_adds. Qed.

Lemma entry_adds_at_most_one_witness :
  (∃ code, [3] = [] ++ code ∧ (code = [] ∨ code = [1] ∨ code = [2] ∨ code = [3]))
  ∧ ([[sample_members]] = [] ∨ ∃ fg, [[sample_members]] = [] ++ [fg]).
Proof.
  apply (entry_adds_at_most_one (sample_env None 0) "d" "b" false 1000000
           (MFile "id1" "00" "2" "s" "http://h/a.tar") [] [] (staging [])
           [3] [[sample_members]]
           (snd (manifest_entry (sample_env None 0) "d" "b" false 1000000
                   (MFile "id1" "00" "2" "s" "http://h/a.tar") ([], []) (staging [])))).
  vm_compute. reflexivity.
Defined.

(** X13.  [download_manifest] returns at most one file group for each
    entry of the manifest (lines 94-200). *)
Theorem one_group_per_entry_at_most (E : env) (manifest : list mfile)
    (destination bucket : string) (no_verify : bool) (block_size : Z) (w : world)
    (file_groups : list file_group) (w' : world) :
  download_manifest E manifest destination bucket no_verify block_size w
  = (Ok file_groups, w') →
  (length file_groups ≤ length manifest)%nat.
Proof.
  unfold download_manifest. unfold bind at 1.
  destruct (for_each manifest _ ([], []) w) as [[[f g]|e] w1] eqn:Hloop; [|discriminate].
  intros [= <- <-]. apply manifest_loop_bounds in Hloop as (Hg & _). simpl in Hg. exact Hg.
Qed.

Lemma one_group_per_entry_at_most_witness :
  (length [[sample_members]] ≤ length [sample_entry; MFile "id2" "" "" "s" "ftp://h/b.tar"])%nat.
Proof.
  apply (one_group_per_entry_at_most (sample_env None 0)
           [sample_entry; MFile "id2" "" "" "s" "ftp://h/b.tar"] "d" "b" false 1000000
           (staging []) [[sample_members]]
           (snd (download_manifest (sample_env None 0)
                   [sample_entry; MFile "id2" "" "" "s" "ftp://h/b.tar"] "d" "b" false 1000000
                   (staging [])))).
  vm_compute. reflexivity.
Defined.

(** X14.  An exception of the selector is not caught: when the entries
    before [mf] are done and the URLs of [mf] make
    [get_prioritized_endpoint] raise, [download_manifest] ends with that
    exception, in the state the earlier entries left, and the entries
    after [mf] are not looked at (lines 97-98). *)
Theorem selector_error_ends_the_run (E : env) (before : list mfile) (mf : mfile)
    (after : list mfile) (destination bucket : string) (no_verify : bool)
    (block_size : Z) (w w1 : world) (st : list Z * list file_group) (e : exn) :
  for_each before (manifest_entry E destination bucket no_verify block_size) ([], []) w
  = (Ok st, w1) →
  get_prioritized_endpoint (urls mf) "" = Raise e →
  download_manifest E (before ++ mf :: after) destination bucket no_verify block_size w
  = (Raise e, w1).
Proof.
  intros Hbefore Hsel. unfold download_manifest. unfold bind at 1.
  rewrite for_each_app. unfold bind at 1. rewrite Hbefore.
  cbn [for_each]. unfold bind at 1.
  destruct st as [f g]. unfold manifest_entry. unfold bind at 1. unfold lift at 1.
  rewrite Hsel. reflexivity.
Qed.

Lemma selector_error_ends_the_run_witness :
  download_manifest (sample_env None 0)
    ([] ++ MFile "id1" "" "" "s" "s3://HMDEMO" :: [sample_entry]) "d" "b" false 1000000
    (staging [])
  = (Raise IndexError, staging []).
Proof.
  apply (selector_error_ends_the_run (sample_env None 0) []
           (MFile "id1" "" "" "s" "s3://HMDEMO") [sample_entry] "d" "b" false 1000000
           (staging []) (staging []) ([], []) IndexError).
  - reflexivity.
  - reflexivity.
Defined.

(** ** More on the extractor and the uploader *)

Section ExtractorMore.

Implicit Types w : world.

Lemma put_keeps_files p data w k :
  is_Some (fs w !! k) → is_Some (fs (snd (FS.put p data w)) !! k).
Proof.
  intros Hk. unfold FS.put. destruct (FS.is_dir w p); [exact Hk|].
  cbn [snd]. rewrite set_fs_fs. destruct (decide (Path.norm p = k)) as [->|Hne].
  - rewrite lookup_insert_eq. eauto.
  - rewrite lookup_insert_ne by exact Hne. exact Hk.
Qed.

Lemma write_members_keep_files tardir (ms : list member) w k :
  is_Some (fs w !! k) →
  is_Some (fs (snd (for_each ms
                      (λ (m : member) (_ : unit),
                         FS.put (Path.join tardir (name m)) (payload m)) tt w)) !! k).
Proof.
  revert w; induction ms as [|m ms IH]; intros w Hk; [exact Hk|].
  cbn [for_each]. unfold bind.
  pose proof (put_keeps_files (Path.join tardir (name m)) (payload m) w k Hk) as Hput.
  destruct (FS.put _ _ w) as [[[]|e] w1]; cbn [snd] in Hput |- *; [|exact Hput].
  apply IH, Hput.
Qed.

End ExtractorMore.

(** X15.  On a file that is not there, or that [tarfile] cannot read,
    [untar_file] writes its message and then raises [UnboundLocalError],
    from the [return contents] that follows the handler; the files are
    left as they were (lines 277-292). *)
Theorem unreadable_archive_raises_unbound (E : env) (w : world) (path : string) :
  (fs w !! Path.norm path = None
   ∨ ∃ data, fs w !! Path.norm path = Some data ∧ tar_members E data = None) →
  untar_file E path w
  = (Raise UnboundLocalError,
     World (fs w) (dirs w) (sent w) (ran w)
       (stderr w ++ ["Problem untarring file " +:+ path +:+ Py.nl])).
Proof.
  intros H. unfold untar_file.
  unfold bind at 1. unfold try_except at 1. unfold bind at 1.
  unfold tarfile_open at 1. enter FS.read_file.
  destruct H as [-> | (data & -> & ->)]; reflexivity.
Qed.

Lemma unreadable_archive_raises_unbound_witness :
  untar_file (sample_env None 0) "d/fastqs/a.tar" (staging [])
  = (Raise UnboundLocalError,
     World (fs (staging [])) (dirs (staging [])) (sent (staging [])) (ran (staging []))
       (stderr (staging []) ++ ["Problem untarring file " +:+ "d/fastqs/a.tar" +:+ Py.nl])).
Proof.
  apply (unreadable_archive_raises_unbound (sample_env None 0) (staging []) "d/fastqs/a.tar").
  left. vm_compute. reflexivity.
Defined.

(** X16.  When the members are listed and every one of them is written,
    [untar_file] removes the archive and returns the members; nothing
    goes to [sys.stderr] (lines 277-292). *)
Theorem extracted_archive_is_removed (E : env) (w w1 : world) (path : string)
    (data : bytes) (ms : list member) :
  fs w !! Path.norm path = Some data →
  tar_members E data = Some ms →
  extractall E (data, ms) (Path.dirname path) w = (Ok tt, w1) →
  untar_file E path w = (Ok ms, set_fs (delete (Path.norm path)) w1)
  ∧ fs (set_fs (delete (Path.norm path)) w1) !! Path.norm path = None
  ∧ stderr (set_fs (delete (Path.norm path)) w1) = stderr w.
Proof.
  intros Hd Hm Hx.
  assert (Hfault : extract_fault E data = None).
  { unfold extractall in Hx. destruct (extract_fault E data); [|reflexivity].
    unfold bind, raise in Hx. destruct (for_each _ _ tt w) as [[[]|] ?]; discriminate. }
  assert (Hkept : is_Some (fs w1 !! Path.norm path)).
  { unfold extractall in Hx. rewrite Hfault in Hx.
    pose proof (write_members_keep_files (Path.dirname path) ms w (Path.norm path)
                  ltac:(eauto)) as Hk.
    rewrite Hx in Hk. exact Hk. }
  assert (Herr : stderr w1 = stderr w).
  { unfold extractall in Hx. rewrite Hfault in Hx.
    pose proof (write_members_stderr (Path.dirname path) ms w) as Hs.
    rewrite Hx in Hs. exact Hs. }
  destruct Hkept as [d1 Hd1].
  split; [|split].
  - unfold untar_file.
    unfold bind at 1. unfold try_except at 1. unfold bind at 1.
    unfold tarfile_open at 1. enter FS.read_file.
    rewrite Hd, Hm. unfold ret at 1. enter try_except.
    unfold bind at 1. cbn [snd]. rewrite Hx.
    unfold FS.unlink. rewrite Hd1. reflexivity.
  - rewrite set_fs_fs. apply lookup_delete_eq.
  - exact Herr.
Qed.

Lemma extracted_archive_is_removed_witness :
  untar_file (sample_env None 0) "d/fastqs/a.tar"
    (staging [("d/fastqs/a.tar", ["A"; "B"]%byte)])
  = (Ok sample_members,
     set_fs (delete (Path.norm "d/fastqs/a.tar"))
       (snd (extractall (sample_env None 0) (["A"; "B"]%byte, sample_members)
               (Path.dirname "d/fastqs/a.tar")
               (staging [("d/fastqs/a.tar", ["A"; "B"]%byte)])))).
Proof.
  apply (extracted_archive_is_removed (sample_env None 0)
           (staging [("d/fastqs/a.tar", ["A"; "B"]%byte)])
           (snd (extractall (sample_env None 0) (["A"; "B"]%byte, sample_members)
                   (Path.dirname "d/fastqs/a.tar")
                   (staging [("d/fastqs/a.tar", ["A"; "B"]%byte)])))
           "d/fastqs/a.tar" ["A"; "B"]%byte sample_members).
  - vm_compute. reflexivity.
  - reflexivity.
  - vm_compute. reflexivity.
Defined.

(** X17.  Only the entries of the staging directory whose name ends in
    [.tar] are extracted: when there is none, as after the download of a
    file named [x.tar.gz], [untar_files_downloaded] returns an empty
    collection and changes nothing (lines 260-275). *)
Theorem nothing_extracted_without_tar (E : env) (w : world) (download_dir : string) :
  FS.is_dir w (Path.join download_dir "fastqs") = true →
  Forall (λ entry, Py.endswith entry ".tar" = false)
    (FS.entries w (Path.join download_dir "fastqs")) →
  untar_files_downloaded E download_dir w = (Ok [], w).
Proof.
  intros Hdir Hall. unfold untar_files_downloaded. cbv zeta.
  enter FS.listdir. rewrite Hdir.
  generalize (@nil (list member)).
  induction Hall as [|entry entries Hentry _ IH]; intros collection; [reflexivity|].
  cbn [for_each]. rewrite Hentry. unfold bind at 1. unfold ret at 1. apply IH.
Qed.

Lemma nothing_extracted_without_tar_witness :
  untar_files_downloaded (sample_env None 0) "d" (staging [("d/fastqs/x.tar.gz", ["A"]%byte)])
  = (Ok [], staging [("d/fastqs/x.tar.gz", ["A"]%byte)]).
Proof.
  apply nothing_extracted_without_tar.
  - vm_compute. reflexivity.
  - vm_compute. repeat constructor.
Defined.

(** X18.  [clear_fastqs] only removes files: whether it ends well or
    raises on the way, every file that is there afterwards was there
    before with the same content, and no directory is made or removed
    (lines 202-207). *)
Theorem clear_fastqs_only_removes (destination : string) (w : world) :
  fs (snd (clear_fastqs destination w)) ⊆ fs w
  ∧ dirs (snd (clear_fastqs destination w)) = dirs w.
Proof.
  unfold clear_fastqs. cbv zeta. unfold bind, FS.listdir.
  destruct (FS.is_dir w (Path.join destination "fastqs")); [|split; reflexivity].
  set (fastqs := Path.join destination "fastqs").
  generalize (FS.entries w fastqs). intros entries.
  assert (G : ∀ w0, fs (snd (for_each entries
                               (λ entry (_ : unit), FS.unlink (Path.join fastqs entry)) tt w0))
                    ⊆ fs w0
                    ∧ dirs (snd (for_each entries
                                   (λ entry (_ : unit), FS.unlink (Path.join fastqs entry))
                                   tt w0)) = dirs w0).
  { induction entries as [|entry entries IH]; intros w0; [split; reflexivity|].
    cbn [for_each]. unfold bind. unfold FS.unlink at 1 3.
    destruct (fs w0 !! Path.norm (Path.join fastqs entry)) as [data|] eqn:Hp;
      [|split; reflexivity].
    destruct (IH (set_fs (delete (Path.norm (Path.join fastqs entry))) w0)) as [Hsub Hdirs].
    split; [|exact Hdirs].
    etransitivity; [exact Hsub|]. rewrite set_fs_fs. apply delete_subseteq. }
  apply G.
Qed.

Section ClearMore.

Implicit Types w : world.

Lemma unlinked_are_gone fastqs : ∀ (entries : list string) w w',
  for_each entries (λ entry (_ : unit), FS.unlink (Path.join fastqs entry)) tt w
  = (Ok tt, w') →
  fs w' ⊆ fs w
  ∧ dirs w' = dirs w
  ∧ ∀ entry, entry ∈ entries → fs w' !! Path.norm (Path.join fastqs entry) = None.
Proof.
  induction entries as [|entry entries IH]; intros w w'.
  - intros [= <-]. split; [reflexivity|]. split; [reflexivity|].
    intros entry H. inversion H.
  - cbn [for_each]. unfold bind. unfold FS.unlink at 1.
    destruct (fs w !! Path.norm (Path.join fastqs entry)) as [data|] eqn:Hp; [|discriminate].
    intros Hrest. apply IH in Hrest as (Hsub & Hdirs & Hgone).
    rewrite set_fs_fs in Hsub.
    split; [|split].
    + etransitivity; [exact Hsub | apply delete_subseteq].
    + exact Hdirs.
    + intros e He. apply elem_of_cons in He as [->|He]; [|apply Hgone, He].
      eapply lookup_weaken_None; [apply lookup_delete_eq | exact Hsub].
Qed.

End ClearMore.

(** X19.  A staging directory that holds files only, no directory:
    when [clear_fastqs] ends without an exception the directory is empty,
    and the files outside it are as they were before (lines 202-207). *)
Theorem cleared_staging_is_empty (destination : string) (w w' : world) :
  (∀ p, p ∈ dirs w → Path.child (Path.norm (Path.join destination "fastqs")) p = None) →
  (∀ p entry, is_Some (fs w !! p) →
              Path.child (Path.norm (Path.join destination "fastqs")) p = Some entry →
              p = Path.norm (Path.join (Path.join destination "fastqs") entry)) →
  clear_fastqs destination w = (Ok tt, w') →
  FS.entries w' (Path.join destination "fastqs") = []
  ∧ ∀ p, Path.child (Path.norm (Path.join destination "fastqs")) p = None →
         fs w' !! p = fs w !! p.
Proof.
  intros Hdirs Hflat. unfold clear_fastqs. cbv zeta.
  set (fastqs := Path.join destination "fastqs") in *.
  enter FS.listdir. destruct (FS.is_dir w fastqs); [|discriminate].
  intros Hrun. pose proof Hrun as Hloop.
  apply unlinked_are_gone in Hloop as (Hsub & Hd & Hgone).
  split.
  - destruct (FS.entries w' fastqs) as [|e es] eqn:Hents; [reflexivity|]. exfalso.
    assert (He : e ∈ FS.entries w' fastqs) by (rewrite Hents; left).
    unfold FS.entries in He.
    apply elem_of_remove_dups, list_elem_of_omap in He as (p & Hp & Hc).
    apply elem_of_paths in Hp as [[v Hv] | Hp].
    + pose proof (lookup_weaken _ _ _ _ Hv Hsub) as Hv0.
      assert (Hin : e ∈ FS.entries w fastqs).
      { unfold FS.entries. apply elem_of_remove_dups, list_elem_of_omap.
        exists p. split; [|exact Hc]. apply elem_of_paths. eauto. }
      rewrite (Hflat p e ltac:(eauto) Hc) in Hv. rewrite (Hgone e Hin) in Hv. discriminate.
    + rewrite Hd in Hp. rewrite (Hdirs p Hp) in Hc. discriminate.
  - intros p Hp.
    destruct (fs w !! p) as [v|] eqn:Hv.
    + assert (G : ∀ (entries : list string) w0 w1,
                for_each entries (λ entry (_ : unit), FS.unlink (Path.join fastqs entry)) tt w0
                = (Ok tt, w1) →
                (∀ entry, entry ∈ entries →
                          Path.child (Path.norm fastqs) (Path.norm (Path.join fastqs entry))
                          ≠ None ∨ fs w0 !! Path.norm (Path.join fastqs entry) = None) →
                fs w0 !! p = Some v → fs w1 !! p = Some v).
      { induction entries as [|entry entries IH]; intros w0 w1.
        - intros [= <-] _ H. exact H.
        - cbn [for_each]. unfold bind. unfold FS.unlink at 1.
          destruct (fs w0 !! Path.norm (Path.join fastqs entry)) as [data|] eqn:Hk;
            [|discriminate].
          intros Hrest Hall Hv0. apply (IH _ _ Hrest).
          + intros e He. destruct (Hall e ltac:(right; exact He)) as [H|H]; [left; exact H|].
            right. rewrite set_fs_fs.
            destruct (decide (Path.norm (Path.join fastqs entry)
                              = Path.norm (Path.join fastqs e))) as [<-|Hne].
            * apply lookup_delete_eq.
            * rewrite lookup_delete_ne by exact Hne. exact H.
          + rewrite set_fs_fs.
            destruct (decide (Path.norm (Path.join fastqs entry) = p)) as [<-|Hne].
            * destruct (Hall entry ltac:(left)) as [H|H]; congruence.
            * rewrite lookup_delete_ne by exact Hne. exact Hv0. }
      apply (G _ _ _ Hrun); [|exact Hv].
      intros entry Hin. unfold FS.entries in Hin.
      apply elem_of_remove_dups, list_elem_of_omap in Hin as (q & Hq & Hc).
      apply elem_of_paths in Hq as [Hq | Hq].
      * left. rewrite <- (Hflat q entry Hq Hc). congruence.
      * rewrite (Hdirs q Hq) in Hc. discriminate.
    + eapply lookup_weaken_None; eassumption.
Qed.

Lemma cleared_staging_is_empty_witness :
  FS.entries
    (snd (clear_fastqs "d" (staging [("d/fastqs/s_R1_001.fastq.gz", ["1"]%byte);
                                     ("d/sample-t.txt", ["x"]%byte)])))
    (Path.join "d" "fastqs") = []
  ∧ ∀ p, Path.child (Path.norm (Path.join "d" "fastqs")) p = None →
         fs (snd (clear_fastqs "d" (staging [("d/fastqs/s_R1_001.fastq.gz", ["1"]%byte);
                                             ("d/sample-t.txt", ["x"]%byte)]))) !! p
         = fs (staging [("d/fastqs/s_R1_001.fastq.gz", ["1"]%byte);
                        ("d/sample-t.txt", ["x"]%byte)]) !! p.
Proof.
  apply (cleared_staging_is_empty "d"
           (staging [("d/fastqs/s_R1_001.fastq.gz", ["1"]%byte);
                     ("d/sample-t.txt", ["x"]%byte)])).
  - intros p Hp. unfold staging in Hp. cbn [dirs] in Hp.
    apply elem_of_cons in Hp as [->|Hp]; [vm_compute; reflexivity|].
    apply elem_of_cons in Hp as [->|Hp]; [vm_compute; reflexivity|].
    inversion Hp.
  - intros p entry [v Hv] Hc. unfold staging in Hv. cbn [fs] in Hv.
    apply elem_of_list_to_map_2 in Hv.
    apply elem_of_cons in Hv as [[= -> ->]|Hv].
    { vm_compute in Hc. injection Hc as <-. vm_compute. reflexivity. }
    apply elem_of_cons in Hv as [[= -> ->]|Hv].
    { vm_compute in Hc. discriminate. }
    inversion Hv.
  - vm_compute. reflexivity.
Defined.

(** X20.  [upload2bucket] runs one command: [gsutil cp], then [-r] when
    asked to be recursive, then the local path and the bucket, which
    begins with [gs://] whether the caller wrote the prefix or not.  It
    returns when the exit code is 0; otherwise it writes what [gsutil]
    wrote to its error output and raises an exception whose message
    names the bucket as the caller wrote it (lines 237-258). *)
Theorem upload_runs_one_gsutil (E : env) (w : world) (local_path bucket_location : string)
    (recursive : bool) :
  ∃ bucket_formal exit_code out err,
    gsutil_command local_path bucket_location recursive
    = ["gsutil"; "cp"] ++ (if recursive then ["-r"] else []) ++ [local_path; bucket_formal]
    ∧ Py.startswith bucket_formal "gs://" = true
    ∧ (bucket_formal = bucket_location ∨ bucket_formal = "gs://" +:+ bucket_location)
    ∧ run_command E (gsutil_command local_path bucket_location recursive)
      = (exit_code, out, err)
    ∧ upload2bucket E local_path bucket_location recursive w
      = if exit_code =? 0
        then (Ok tt,
              World (fs w) (dirs w) (sent w)
                (ran w ++ [gsutil_command local_path bucket_location recursive]) (stderr w))
        else (Raise (Exception ("Upload to GCP location " +:+ bucket_location +:+ " failed.")),
              World (fs w) (dirs w) (sent w)
                (ran w ++ [gsutil_command local_path bucket_location recursive])
                (stderr w ++ [err])).
Proof.
  destruct (run_command E (gsutil_command local_path bucket_location recursive))
    as [[exit_code out] err] eqn:Hrun.
  exists (if negb (Py.startswith bucket_location "gs://")
          then "gs://" +:+ bucket_location else bucket_location), exit_code, out, err.
  split; [|split; [|split; [|split]]].
  - unfold gsutil_command. destruct recursive; reflexivity.
  - destruct (Py.startswith bucket_location "gs://") eqn:Hs; [exact Hs|].
    cbn [negb]. unfold Py.startswith. apply prefix_append.
  - destruct (Py.startswith bucket_location "gs://"); auto.
  - reflexivity.
  - unfold upload2bucket. cbv zeta. enter executor_run. rewrite Hrun.
    destruct (exit_code =? 0); reflexivity.
Qed.

(** ** More on the sample grouper *)

Section GrouperMore.

(** A group gives one line or one report of two strings. *)
Lemma group_step_writes group l out l' out' :
  group_step group (l, out) = Ok (l', out') →
  (∃ line, sample_lines out' = sample_lines out ++ [line] ∧ reports out' = reports out)
  ∨ (∃ nm, sample_lines out' = sample_lines out
           ∧ reports out' = reports out ++ [not_one_each; nm +:+ Py.nl]).
Proof.
  unfold group_step.
  set (l1 := fold_left note_member group l).
  assert (Hreport :
            rbind (match name_var (fold_left rebind_name group l1) with
                   | Some nm => Ok nm
                   | None => Raise UnboundLocalError
                   end)
              (λ nm, Ok (fold_left rebind_name group l1,
                         Output (sample_lines out)
                           (reports out ++ [not_one_each; Py.join Py.nl ([] ++ [nm]) +:+ Py.nl])))
            = Ok (l', out') →
            ∃ nm, sample_lines out' = sample_lines out
                  ∧ reports out' = reports out ++ [not_one_each; nm +:+ Py.nl]).
  { destruct (name_var (fold_left rebind_name group l1)) as [nm|]; [|discriminate].
    intros [= <- <-]. exists nm. split; reflexivity. }
  destruct (r1 l1) as [a|]; [|right; apply Hreport; assumption].
  destruct (r2 l1) as [b|]; [|right; apply Hreport; assumption].
  destruct (i1 l1) as [c|]; [|right; apply Hreport; assumption].
  destruct (head (Py.split a "_R1_")) as [sample|]; [|discriminate].
  intros [= <- <-]. left. eexists. split; reflexivity.
Qed.

Lemma group_steps_count : ∀ group_list st st',
  group_steps group_list st = Ok st' →
  (2 * length (sample_lines (snd st')) + length (reports (snd st'))
   = 2 * length (sample_lines (snd st)) + length (reports (snd st))
     + 2 * length group_list)%nat.
Proof.
  induction group_list as [|group group_list IH]; intros st st'.
  - intros [= <-]. simpl. lia.
  - cbn [group_steps]. destruct st as [l out].
    destruct (group_step group (l, out)) as [[l1 out1]|e] eqn:Hstep; [|discriminate].
    cbn [rbind]. intros Hrest. apply IH in Hrest. cbn [snd] in *.
    apply group_step_writes in Hstep as [(line & Hs & Hr) | (nm & Hs & Hr)];
      rewrite Hs, Hr in Hrest; rewrite ?length_app in Hrest; simpl in *; lia.
Qed.

Lemma group_lists_count : ∀ file_groups st st',
  group_lists file_groups st = Ok st' →
  (2 * length (sample_lines (snd st')) + length (reports (snd st'))
   = 2 * length (sample_lines (snd st)) + length (reports (snd st))
     + 2 * length (concat file_groups))%nat.
Proof.
  induction file_groups as [|group_list file_groups IH]; intros st st'.
  - intros [= <-]. simpl. lia.
  - cbn [group_lists]. unfold group_list_step at 1. destruct st as [nv out].
    destruct (group_steps group_list (Locals None None None nv, out)) as [st1|e] eqn:Hsteps;
      [|discriminate].
    cbn [rbind]. intros Hrest. apply IH in Hrest. apply group_steps_count in Hsteps.
    cbn [snd concat] in *. rewrite length_app. lia.
Qed.

(** A group that is not empty never makes the function raise. *)
Lemma group_step_total group l out :
  group ≠ [] → ∃ l' out', group_step group (l, out) = Ok (l', out')
                          ∧ ∃ nm, name_var l' = Some nm.
Proof.
  intros Hne. unfold group_step. rewrite note_members_spec.
  cbn [r1 r2 i1 name_var].
  assert (Hlast : ∃ nm, last (map name group) = Some nm).
  { destruct (last (map name group)) eqn:L; [eauto|].
    apply last_None in L. destruct group; [congruence | discriminate]. }
  destruct Hlast as [nm Hnm].
  assert (Hnv : ∀ o, latest o (map name group) = Some nm)
    by (intros o; unfold latest; rewrite Hnm; reflexivity).
  assert (Hreport : ∀ x1 x2 x3,
            ∃ l' out',
              rbind (match name_var
                             (fold_left rebind_name group
                                (Locals x1 x2 x3 (latest (name_var l) (map name group)))) with
                     | Some nm => Ok nm
                     | None => Raise UnboundLocalError
                     end)
                (λ nm0, Ok (fold_left rebind_name group
                              (Locals x1 x2 x3 (latest (name_var l) (map name group))),
                            Output (sample_lines out)
                              (reports out
                                 ++ [not_one_each; Py.join Py.nl ([] ++ [nm0]) +:+ Py.nl])))
              = Ok (l', out') ∧ ∃ nm', name_var l' = Some nm').
  { intros x1 x2 x3. rewrite rebind_names_spec. cbn [r1 r2 i1 name_var].
    rewrite latest_idem, Hnv. cbn [rbind]. eauto. }
  destruct (latest (r1 l) (names_of R1 group)) as [a|]; [|apply Hreport].
  destruct (latest (r2 l) (names_of R2 group)) as [b|]; [|apply Hreport].
  destruct (latest (i1 l) (names_of I1 group)) as [c|]; [|apply Hreport].
  destruct (head (Py.split a "_R1_")) as [sample|] eqn:Hh.
  - cbn [of_index rbind]. rewrite Hnv. eexists _, _. split; [reflexivity|]. cbn [name_var]. eauto.
  - exfalso. destruct (Py.split a "_R1_") eqn:S; [exact (split_nonempty _ _ S) | discriminate].
Qed.

Lemma group_steps_total : ∀ group_list l out,
  Forall (λ group, group ≠ []) group_list →
  ∃ st', group_steps group_list (l, out) = Ok st'.
Proof.
  induction group_list as [|group group_list IH]; intros l out Hall; [simpl; eauto|].
  inversion Hall as [|? ? Hg Hrest]; subst.
  destruct (group_step_total group l out Hg) as (l1 & out1 & Hstep & _).
  cbn [group_steps]. rewrite Hstep. cbn [rbind]. apply IH, Hrest.
Qed.

Lemma group_lists_total : ∀ file_groups st,
  Forall (Forall (λ group, group ≠ [])) file_groups →
  ∃ st', group_lists file_groups st = Ok st'.
Proof.
  induction file_groups as [|group_list file_groups IH]; intros [nv out] Hall; [simpl; eauto|].
  inversion Hall as [|? ? Hg Hrest]; subst.
  destruct (group_steps_total group_list (Locals None None None nv) out Hg) as [st1 Hsteps].
  cbn [group_lists]. unfold group_list_step at 1. rewrite Hsteps. cbn [rbind].
  apply IH, Hrest.
Qed.

(** Once the three role locals are set, every group gives a line. *)
Lemma group_step_after_complete group l out a b c :
  r1 l = Some a → r2 l = Some b → i1 l = Some c →
  ∃ l' line,
    group_step group (l, out)
    = Ok (l', Output (sample_lines out ++ [line]) (reports out))
    ∧ (∃ a', r1 l' = Some a') ∧ (∃ b', r2 l' = Some b') ∧ (∃ c', i1 l' = Some c').
Proof.
  intros Ha Hb Hc. unfold group_step. rewrite note_members_spec.
  cbn [r1 r2 i1 name_var]. rewrite Ha, Hb, Hc.
  assert (Hl : ∀ x names, ∃ y, latest (Some x) names = Some y)
    by (intros x names; unfold latest; destruct (last names); eauto).
  destruct (Hl a (names_of R1 group)) as [a' ->].
  destruct (Hl b (names_of R2 group)) as [b' ->].
  destruct (Hl c (names_of I1 group)) as [c' ->].
  destruct (head (Py.split a' "_R1_")) as [sample|] eqn:Hh.
  - cbn [of_index rbind]. eexists _, _. split; [reflexivity|].
    cbn [r1 r2 i1]. repeat split; eexists; reflexivity.
  - exfalso. destruct (Py.split a' "_R1_") eqn:S; [exact (split_nonempty _ _ S) | discriminate].
Qed.

Lemma group_steps_after_complete : ∀ group_list l out a b c,
  r1 l = Some a → r2 l = Some b → i1 l = Some c →
  ∃ l' lines,
    group_steps group_list (l, out)
    = Ok (l', Output (sample_lines out ++ lines) (reports out))
    ∧ length lines = length group_list.
Proof.
  induction group_list as [|group group_list IH]; intros l out a b c Ha Hb Hc.
  - exists l, []. rewrite app_nil_r. destruct out. split; reflexivity.
  - destruct (group_step_after_complete group l out a b c Ha Hb Hc)
      as (l1 & line & Hstep & [a1 Ha1] & [b1 Hb1] & [c1 Hc1]).
    destruct (IH l1 (Output (sample_lines out ++ [line]) (reports out)) a1 b1 c1 Ha1 Hb1 Hc1)
      as (l2 & lines & Hrest & Hlen).
    exists l2, (line :: lines). cbn [group_steps]. rewrite Hstep. cbn [rbind].
    rewrite Hrest. cbn [sample_lines reports]. rewrite <- app_assoc.
    split; [reflexivity | simpl; lia].
Qed.

End GrouperMore.

(** X21.  When [create_descriptor] returns, every group has given either
    one line of the descriptor or one report of two strings on
    [sys.stderr]: twice the number of lines plus the number of strings
    reported is twice the number of groups (lines 304-338). *)
Theorem descriptor_accounts_for_every_group (file_groups : list file_group)
    (directory timestamp path : string) (out : output) :
  create_descriptor file_groups directory timestamp = Ok (path, out) →
  (2 * length (sample_lines out) + length (reports out)
   = 2 * length (concat file_groups))%nat
  ∧ path = Path.join directory ("sample-" +:+ timestamp +:+ ".txt").
Proof.
  unfold create_descriptor. cbv zeta.
  destruct (group_lists file_groups (None, Output [] [])) as [st|e] eqn:H; [|discriminate].
  intros [= <- <-]. apply group_lists_count in H. simpl in H. split; [lia | reflexivity].
Qed.

Lemma descriptor_accounts_for_every_group_witness :
  ∃ path out,
    create_descriptor [[sample_members]; [[Member "x.txt" []]]] "d" "t" = Ok (path, out)
    ∧ (2 * length (sample_lines out) + length (reports out)
       = 2 * length (concat [[sample_members]; [[Member "x.txt" []]]]))%nat
    ∧ path = Path.join "d" ("sample-" +:+ "t" +:+ ".txt").
Proof.
  eexists _, _. split; [vm_compute; reflexivity|].
  apply (descriptor_accounts_for_every_group [[sample_members]; [[Member "x.txt" []]]]
           "d" "t").
  vm_compute. reflexivity.
Defined.

(** X22.  The loops of [create_descriptor] raise nothing when no group
    is empty: the function then returns the path of the descriptor.  An
    empty group that comes first makes it raise [UnboundLocalError], as
    the name to report was never assigned (lines 304-342). *)
Theorem descriptor_returns_without_empty_group (file_groups : list file_group)
    (directory timestamp : string) :
  (Forall (Forall (λ group, group ≠ [])) file_groups →
   ∃ out, create_descriptor file_groups directory timestamp
          = Ok (Path.join directory ("sample-" +:+ timestamp +:+ ".txt"), out))
  ∧ ∀ group_list, create_descriptor (([] :: group_list) :: file_groups) directory timestamp
                  = Raise UnboundLocalError.
Proof.
  split.
  - intros Hall. unfold create_descriptor. cbv zeta.
    destruct (group_lists_total file_groups (None, Output [] []) Hall) as [st ->].
    cbn [rbind]. eauto.
  - intros group_list. reflexivity.
Qed.

Lemma descriptor_returns_without_empty_group_witness :
  ∃ out, create_descriptor [[sample_members]; [[Member "x.txt" []]]] "d" "t"
         = Ok (Path.join "d" ("sample-" +:+ "t" +:+ ".txt"), out).
Proof.
  apply (proj1 (descriptor_returns_without_empty_group
                  [[sample_members]; [[Member "x.txt" []]]] "d" "t")).
  repeat constructor; discriminate.
Defined.

(** X23.  The role names are kept from one group to the next inside an
    element of [file_groups]: when its first group has the three roles,
    every group of the element gives a line, whatever it holds, and
    none is reported (lines 304-324). *)
Theorem later_groups_inherit_roles (group : list member) (others : list (list member))
    (nv : option string) (out : output) :
  names_of R1 group ≠ [] → names_of R2 group ≠ [] → names_of I1 group ≠ [] →
  ∃ l' lines,
    group_steps (group :: others) (Locals None None None nv, out)
    = Ok (l', Output (sample_lines out ++ lines) (reports out))
    ∧ length lines = S (length others).
Proof.
  intros H1 H2 H3.
  destruct (last_nonempty _ H1) as [a La].
  destruct (last_nonempty _ H2) as [b Lb].
  destruct (last_nonempty _ H3) as [c Lc].
  destruct (group_step_complete group nv out a b c La Lb Lc)
    as (l1 & sample & rest & Hstep & _).
  assert (Hl1 : r1 l1 = Some a ∧ r2 l1 = Some b ∧ i1 l1 = Some c).
  { revert Hstep. unfold group_step. rewrite note_members_spec.
    cbn [r1 r2 i1 name_var]. rewrite !latest_none, La, Lb, Lc.
    destruct (head (Py.split a "_R1_")); [|discriminate].
    cbn [of_index rbind]. intros [= <- _]. cbn [r1 r2 i1]. auto. }
  destruct Hl1 as (Ha & Hb & Hc).
  destruct (group_steps_after_complete others l1
              (Output (sample_lines out ++ [Py.join Py.tab [sample; a; b; c] +:+ Py.nl])
                 (reports out)) a b c Ha Hb Hc) as (l2 & lines & Hrest & Hlen).
  exists l2, ((Py.join Py.tab [sample; a; b; c] +:+ Py.nl) :: lines).
  cbn [group_steps]. rewrite Hstep. cbn [rbind]. rewrite Hrest.
  cbn [sample_lines reports]. rewrite <- app_assoc. split; [reflexivity | simpl; lia].
Qed.

Lemma later_groups_inherit_roles_witness :
  ∃ l' lines,
    group_steps (sample_members :: [[Member "x.txt" []]; []])
      (Locals None None None None, Output [] [])
    = Ok (l', Output ([] ++ lines) [])
    ∧ length lines = S (length [[Member "x.txt" []]; @nil member]).
Proof.
  apply (later_groups_inherit_roles sample_members [[Member "x.txt" []]; []] None
           (Output [] [])).
  - vm_compute. discriminate.
  - vm_compute. discriminate.
  - vm_compute. discriminate.
Defined.
